(** * The MNIST example script of torchtnt (examples/mnist/main.py)

    A shallow embedding of the script: the argument parser built by
    [get_args], the model [Net], the callback object [MyUnit] and the
    procedure [main], followed by the properties of the script that its
    specification states.

    What the script imports is modelled as follows.
    - [argparse] (CPython 3.11): the parser is data (the list of actions that
      [add_argument] builds) and [parse_args] is a function on the argument
      vector that follows [ArgumentParser._parse_known_args] for a parser
      without positional arguments.
    - [torch], [torcheval], [torchtnt], [torchvision]: every call into them is
      recorded, with its arguments, in the trace of the run; objects they
      return are the records of the arguments they were built from.  A call
      into the framework is taken to return. *)

From Stdlib Require Import ZArith String Ascii List Bool Lia.
From Corelib Require Import PrimFloat.
From stdpp Require Import base option list gmap strings.

Import ListNotations.
Local Open Scope string_scope.
Local Open Scope Z_scope.
Local Open Scope list_scope.

(* ===================================================================== *)
(** ** Python values and exceptions *)

Module Py.

#[local] Set Warnings "-register-all".

(** The values that reach a [Namespace] attribute of this script. *)
Inductive pyval : Type :=
| PyNone
| PyBool (b : bool)
| PyInt (z : Z)
| PyFloat (f : float)
| PyStr (s : string)
| PyList (l : list pyval).

(** The exceptions that the script can surface. *)
Inductive exn : Type :=
| SystemExit (code : Z)
| AttributeError (name : string).

(** The builtins [int] and [float] applied to a string: [None] stands for
    [ValueError].  They are the interpreter's, not the script's. *)
Class Builtins : Type := {
  int_of_str : string -> option Z;
  float_of_str : string -> option float
}.

(** Python truthiness, as used by [if args.save_model:]. *)
Definition truthy (v : pyval) : bool :=
  match v with
  | PyNone => false
  | PyBool b => b
  | PyInt z => negb (z =? 0)
  | PyFloat f => negb (PrimFloat.eqb f 0%float)
  | PyStr s => negb (String.eqb s "")
  | PyList l => match l with [] => false | _ => true end
  end.

End Py.
Export Py.

(* ===================================================================== *)
(** ** String helpers used by argparse *)

Module Str.

Definition minus : ascii := "-"%char.

Definition is_digit (c : ascii) : bool :=
  let n := nat_of_ascii c in ((48 <=? n) && (n <=? 57))%nat.

Fixpoint contains (c : ascii) (s : string) : bool :=
  match s with
  | EmptyString => false
  | String d r => if Ascii.eqb c d then true else contains c r
  end.

(** [s.split(c, 1)] when [c] occurs in [s]. *)
Fixpoint split1 (c : ascii) (s : string) : option (string * string) :=
  match s with
  | EmptyString => None
  | String d r =>
      if Ascii.eqb c d then Some (EmptyString, r)
      else match split1 c r with
           | Some (a, b) => Some (String d a, b)
           | None => None
           end
  end.

(** [s.lstrip(c)] *)
Fixpoint lstrip (c : ascii) (s : string) : string :=
  match s with
  | String d r => if Ascii.eqb c d then lstrip c r else s
  | EmptyString => EmptyString
  end.

(** [s.replace(a, b)] for single characters. *)
Fixpoint replace (a b : ascii) (s : string) : string :=
  match s with
  | EmptyString => EmptyString
  | String d r => String (if Ascii.eqb a d then b else d) (replace a b r)
  end.

(** Drops the digits at the head of [s]; also tells whether there was one. *)
Fixpoint skip_digits (s : string) : bool * string :=
  match s with
  | String d r =>
      if is_digit d then (true, snd (skip_digits r)) else (false, s)
  | EmptyString => (false, EmptyString)
  end.

(** [$] of a regular expression: the end of the string, or the position
    before a newline that ends the string. *)
Definition at_end (s : string) : bool :=
  match s with
  | EmptyString => true
  | String c EmptyString => Ascii.eqb c "010"%char
  | _ => false
  end.

(** [re.match('^-\d+$|^-\d*\.\d+$', s)], digits being the ASCII ones. *)
Definition negative_number_like (s : string) : bool :=
  match s with
  | String c r =>
      if Ascii.eqb c minus then
        let '(some, rest) := skip_digits r in
        (some && at_end rest)
        || match rest with
           | String dot frac =>
               Ascii.eqb dot "."%char
               && (let '(some', rest') := skip_digits frac in
                   some' && at_end rest')
           | EmptyString => false
           end
      else false
  | EmptyString => false
  end.

(** [s.startswith("-")] *)
Definition starts_with_dash (s : string) : bool :=
  match s with
  | String c _ => Ascii.eqb c minus
  | EmptyString => false
  end.

(** All the prefixes of a string, shortest first. *)
Fixpoint prefixes (s : string) : list string :=
  EmptyString ::
  match s with
  | EmptyString => []
  | String c r => map (String c) (prefixes r)
  end.

End Str.

(* ===================================================================== *)
(** ** argparse *)

Module Argparse.

(** The three action classes the script uses: the default [store], the
    [store_true] of [--save-model] and the [help] action that
    [ArgumentParser()] registers. *)
Inductive action_kind : Type := Store | StoreTrue | Help.

(** The [type=] of an action; [TIdentity] when none is given. *)
Inductive type_func : Type := TInt | TFloat | TStr | TIdentity.

(** [argparse.SUPPRESS] *)
Definition SUPPRESS : string := "==SUPPRESS==".

(** An action of the parser. *)
Record Action : Type := mkAction {
  option_strings : list string;
  dest : string;
  kind : action_kind;
  type_ : type_func;
  default : pyval;
  choices : option (list string);
  metavar : option string;
  help : option string
}.

(** [parser._actions], in the order of registration. *)
Definition ArgumentParser_t : Type := list Action.

(** [Namespace]: attribute name to value. *)
Abbreviation Namespace := (gmap string pyval).

(** Why [parser.error] was called. *)
Inductive usage_error : Type :=
| AmbiguousOption (arg : string) (matches : list string)
| ExpectedOneArgument (a : Action)
| IgnoredExplicitArgument (a : Action) (explicit : string)
| InvalidValue (a : Action) (arg : string)
| InvalidChoice (a : Action) (v : pyval)
| UnrecognizedArguments (extras : list string).

(** How a parse stops early: [parser.error] prints the usage and exits with
    status 2; the help action prints the help and exits with status 0. *)
Inductive parser_exit : Type :=
| UsageError (e : usage_error)
| HelpExit.

Definition exit_exn (x : parser_exit) : exn :=
  match x with
  | UsageError _ => SystemExit 2
  | HelpExit => SystemExit 0
  end.

(** [ArgumentParser()]: [add_help=True] registers [-h/--help]. *)
Definition ArgumentParser : ArgumentParser_t :=
  [ mkAction ["-h"; "--help"] SUPPRESS Help TIdentity (PyStr SUPPRESS) None
      None (Some "show this help message and exit") ].

(** The destination inferred from a long option string:
    [option_string.lstrip('-').replace('-', '_')]. *)
Definition dest_of_option (flag : string) : string :=
  Str.replace "-"%char "_"%char (Str.lstrip "-"%char flag).

(** [parser.add_argument(flag, action=..., type=..., default=..., ...)]
    for one long option string. *)
Definition add_argument (parser : ArgumentParser_t) (flag : string)
    (action : action_kind) (type : type_func) (default : pyval)
    (choices : option (list string)) (metavar help : option string)
  : ArgumentParser_t :=
  (parser ++ [ mkAction [flag] (dest_of_option flag) action type default
                 choices metavar help ])%list.

(** [parser._option_string_actions], in insertion order. *)
Definition option_string_actions (parser : ArgumentParser_t)
  : list (string * Action) :=
  flat_map (fun a => map (fun s => (s, a)) (option_strings a)) parser.

Fixpoint assoc (s : string) (l : list (string * Action)) : option Action :=
  match l with
  | [] => None
  | (k, a) :: r => if String.eqb s k then Some a else assoc s r
  end.

(** [parser._option_string_actions.get(s)] *)
Definition lookup_option (parser : ArgumentParser_t) (s : string)
  : option Action :=
  assoc s (option_string_actions parser).

(** An option tuple [(action, option_string, explicit_arg)]. *)
Definition option_tuple : Type := option Action * string * option string.

Definition second_char_is_prefix (s : string) : bool :=
  match s with
  | String _ (String c _) => Ascii.eqb c Str.minus
  | _ => false
  end.

(** [_get_option_tuples], for an [arg] of length at least two that starts
    with the prefix character. *)
Definition get_option_tuples (parser : ArgumentParser_t) (arg : string)
  : list option_tuple :=
  if second_char_is_prefix arg then
    let '(option_prefix, explicit_arg) :=
      match Str.split1 "="%char arg with
      | Some (p, e) => (p, Some e)
      | None => (arg, None)
      end in
    omap (fun '(s, a) =>
            if String.prefix option_prefix s
            then Some (Some a, s, explicit_arg) else None)
         (option_string_actions parser)
  else
    let short_option_prefix := String.substring 0 2 arg in
    let short_explicit_arg := String.substring 2 (String.length arg - 2) arg in
    omap (fun '(s, a) =>
            if String.eqb s short_option_prefix
            then Some (Some a, s, Some short_explicit_arg)
            else if String.prefix arg s
            then Some (Some a, s, None) else None)
         (option_string_actions parser).

(** [parser._has_negative_number_optionals] is non-empty. *)
Definition has_negative_number_optionals (parser : ArgumentParser_t) : bool :=
  existsb (fun '(s, _) => Str.negative_number_like s)
          (option_string_actions parser).

(** [_parse_optional]: [inr None] when the string is meant as a positional,
    [inr (Some t)] when it is an option (known or not). *)
Definition parse_optional (parser : ArgumentParser_t) (arg : string)
  : parser_exit + option option_tuple :=
  match arg with
  | EmptyString => inr None
  | String c _ =>
      if negb (Ascii.eqb c Str.minus) then inr None else
      match lookup_option parser arg with
      | Some a => inr (Some (Some a, arg, None))
      | None =>
          if (String.length arg =? 1)%nat then inr None else
          let by_equals :=
            match Str.split1 "="%char arg with
            | Some (option_string, explicit_arg) =>
                match lookup_option parser option_string with
                | Some a => Some (Some a, option_string, Some explicit_arg)
                | None => None
                end
            | None => None
            end in
          match by_equals with
          | Some t => inr (Some t)
          | None =>
              match get_option_tuples parser arg with
              | _ :: _ :: _ as ts =>
                  inl (UsageError
                         (AmbiguousOption arg (map (fun t => snd (fst t)) ts)))
              | [t] => inr (Some t)
              | [] =>
                  if Str.negative_number_like arg
                     && negb (has_negative_number_optionals parser)
                  then inr None
                  else if Str.contains " "%char arg then inr None
                  else inr (Some (None, arg, None))
              end
          end
      end
  end.

(** The letter of an argument string in [arg_strings_pattern]. *)
Inductive arg_class : Type :=
| ClsA
| ClsDash
| ClsO (t : option_tuple).

(** Every string after the first ["--"] is an argument. *)
Definition after_dashes (args : list string) : list (string * arg_class) :=
  map (fun s => (s, ClsA)) args.

(** The first loop of [_parse_known_args]: the class of each string. *)
Fixpoint classify (parser : ArgumentParser_t) (args : list string)
  : parser_exit + list (string * arg_class) :=
  match args with
  | [] => inr []
  | s :: rest =>
      if String.eqb s "--" then inr ((s, ClsDash) :: after_dashes rest)
      else
        match parse_optional parser s with
        | inl e => inl e
        | inr t =>
            match classify parser rest with
            | inl e => inl e
            | inr cl =>
                inr ((s, match t with None => ClsA | Some t => ClsO t end)
                       :: cl)
            end
        end
  end.

(** Sequencing of steps that may call [parser.error] or [parser.exit]. *)
Notation "'let*' x := e 'in' k" :=
  (match e with inl err => inl err | inr x => k end)
  (at level 10, x pattern, e at level 100, k at level 200, only parsing).

(** [nargs]: a [store] action takes one argument string (nargs=None), the
    other two take none (nargs=0). *)
Definition takes_one_argument (a : Action) : bool :=
  match kind a with
  | Store => true
  | StoreTrue | Help => false
  end.

(** [_get_value]: the conversion by [type]; [ValueError] becomes
    "invalid ... value". *)
Definition get_value `{Builtins} (a : Action) (arg : string)
  : parser_exit + pyval :=
  match type_ a with
  | TInt =>
      match int_of_str arg with
      | Some z => inr (PyInt z)
      | None => inl (UsageError (InvalidValue a arg))
      end
  | TFloat =>
      match float_of_str arg with
      | Some f => inr (PyFloat f)
      | None => inl (UsageError (InvalidValue a arg))
      end
  | TStr | TIdentity => inr (PyStr arg)
  end.

(** [value in action.choices], the choices being strings. *)
Definition in_choices (v : pyval) (cs : list string) : bool :=
  match v with
  | PyStr s => existsb (String.eqb s) cs
  | _ => false
  end.

(** [_check_value] *)
Definition check_value (a : Action) (v : pyval) : parser_exit + unit :=
  match choices a with
  | Some cs =>
      if in_choices v cs then inr tt
      else inl (UsageError (InvalidChoice a v))
  | None => inr tt
  end.

(** [arg_strings.remove('--')], ignoring its [ValueError]. *)
Fixpoint remove_dashes (arg_strings : list string) : list string :=
  match arg_strings with
  | [] => []
  | s :: r => if String.eqb s "--" then r else s :: remove_dashes r
  end.

Fixpoint get_value_list `{Builtins} (a : Action) (arg_strings : list string)
  : parser_exit + list pyval :=
  match arg_strings with
  | [] => inr []
  | s :: r =>
      let* v := get_value a s in
      let* vs := get_value_list a r in
      inr (v :: vs)
  end.

Fixpoint check_value_list (a : Action) (vs : list pyval)
  : parser_exit + unit :=
  match vs with
  | [] => inr tt
  | v :: r => let* _ := check_value a v in check_value_list a r
  end.

(** [_get_values]: one string for nargs=None gives a single value, every
    other case a list. *)
Definition get_values `{Builtins} (a : Action) (arg_strings : list string)
  : parser_exit + pyval :=
  let arg_strings := remove_dashes arg_strings in
  match arg_strings, takes_one_argument a with
  | [arg_string], true =>
      let* value := get_value a arg_string in
      let* _ := check_value a value in
      inr value
  | _, _ =>
      let* value := get_value_list a arg_strings in
      let* _ := check_value_list a value in
      inr (PyList value)
  end.

Definition setattr (namespace : Namespace) (name : string) (v : pyval)
  : Namespace :=
  <[name := v]> namespace.

(** [action(parser, namespace, values, option_string)] *)
Definition call_action (a : Action) (namespace : Namespace) (values : pyval)
  : parser_exit + Namespace :=
  match kind a with
  | Store => inr (setattr namespace (dest a) values)
  | StoreTrue => inr (setattr namespace (dest a) (PyBool true))
  | Help => inl HelpExit
  end.

(** [take_action] *)
Definition take_action `{Builtins} (a : Action) (argument_strings : list string)
    (namespace : Namespace) : parser_exit + Namespace :=
  let* argument_values := get_values a argument_strings in
  call_action a namespace argument_values.

Fixpoint take_actions `{Builtins} (action_tuples : list (Action * list string))
    (namespace : Namespace) : parser_exit + Namespace :=
  match action_tuples with
  | [] => inr namespace
  | (a, args) :: r =>
      let* namespace := take_action a args namespace in
      take_actions r namespace
  end.

(** The loop of [consume_optional] while there is an explicit argument:
    the action tuples collected so far and, when the explicit argument was
    used up by single-dash flags, the action left without one. *)
Fixpoint explicit_chain (parser : ArgumentParser_t) (a : Action)
    (option_string explicit_arg : string)
    (action_tuples : list (Action * list string))
  : parser_exit + (list (Action * list string) * option Action) :=
  match explicit_arg with
  | String c tail =>
      if takes_one_argument a
      then inr ((action_tuples ++ [(a, [explicit_arg])])%list, None)
      else if negb (second_char_is_prefix option_string) then
        let option_string := String Str.minus (String c EmptyString) in
        match lookup_option parser option_string with
        | Some a' =>
            let action_tuples := (action_tuples ++ [(a, [])])%list in
            match tail with
            | EmptyString => inr (action_tuples, Some a')
            | _ => explicit_chain parser a' option_string tail action_tuples
            end
        | None => inl (UsageError (IgnoredExplicitArgument a explicit_arg))
        end
      else inl (UsageError (IgnoredExplicitArgument a explicit_arg))
  | EmptyString =>
      if takes_one_argument a
      then inr ((action_tuples ++ [(a, [explicit_arg])])%list, None)
      else inl (UsageError (IgnoredExplicitArgument a explicit_arg))
  end.

(** The second loop of [_parse_known_args] for a parser without
    positionals: strings that are no option and that no option takes go to
    [extras]. *)
Fixpoint consume_args `{Builtins} (parser : ArgumentParser_t)
    (cl : list (string * arg_class)) (namespace : Namespace)
    (extras : list string) : parser_exit + (Namespace * list string) :=
  match cl with
  | [] => inr (namespace, extras)
  | (s, ClsA) :: rest | (s, ClsDash) :: rest
  | (s, ClsO (None, _, _)) :: rest =>
      consume_args parser rest namespace (extras ++ [s])%list
  | (s, ClsO (Some a, option_string, explicit_arg)) :: rest =>
      let* (action_tuples, pending) :=
        match explicit_arg with
        | Some e => explicit_chain parser a option_string e []
        | None => inr ([], Some a)
        end in
      match pending with
      | None =>
          let* namespace := take_actions action_tuples namespace in
          consume_args parser rest namespace extras
      | Some a' =>
          if takes_one_argument a' then
            match rest with
            | (v, ClsA) :: rest' =>
                let* namespace :=
                  take_actions (action_tuples ++ [(a', [v])])%list namespace in
                consume_args parser rest' namespace extras
            | _ => inl (UsageError (ExpectedOneArgument a'))
            end
          else
            let* namespace :=
              take_actions (action_tuples ++ [(a', [])])%list namespace in
            consume_args parser rest namespace extras
      end
  end.

(** The defaults that [parse_known_args] puts in a fresh [Namespace]. *)
Definition add_defaults (parser : ArgumentParser_t) : Namespace :=
  fold_left
    (fun namespace a =>
       if String.eqb (dest a) SUPPRESS then namespace
       else match namespace !! dest a with
            | Some _ => namespace
            | None =>
                match default a with
                | PyStr s =>
                    if String.eqb s SUPPRESS then namespace
                    else setattr namespace (dest a) (default a)
                | d => setattr namespace (dest a) d
                end
            end)
    parser (∅ : Namespace).

(** [parser.parse_args(args)].  (The conversion of a string default by
    [type] is left out: it applies to defaults that are strings, and the
    parser of this script has none.) *)
Definition parse_args `{Builtins} (parser : ArgumentParser_t)
    (args : list string) : exn + Namespace :=
  let namespace := add_defaults parser in
  match
    (let* cl := classify parser args in
     let* (namespace, extras) := consume_args parser cl namespace [] in
     match extras with
     | [] => inr namespace
     | _ => inl (UsageError (UnrecognizedArguments extras))
     end)
  with
  | inl e => inl (exit_exn e)
  | inr namespace => inr namespace
  end.

End Argparse.

(* ===================================================================== *)
(** ** torch and the framework: tensors and the objects the script builds *)

Module Torch.

#[local] Set Warnings "-inexact-float".

(** [torch.device] *)
Record device : Type := mkDevice {
  type : string;
  index : option Z
}.

(** [torch.device(s)] for a bare device type. *)
Definition torch_device (s : string) : device := mkDevice s None.

(** The layers that [Net.__init__] creates and the functions of
    [torch.nn.functional] and [torch] that [Net.forward] applies. *)
Inductive op : Type :=
| Conv2d (in_channels out_channels kernel_size stride : Z)
| Dropout (p : float)
| Linear (in_features out_features : Z)
| relu
| max_pool2d (kernel_size : Z)
| flatten (start_dim : Z)
| log_softmax (dim : Z).

(** Tensors and the tensor computations of the libraries, which the script
    only composes. *)
Class Tensors : Type := {
  Tensor : Type;
  (** applying a layer or a function to a tensor *)
  apply : op -> Tensor -> Tensor;
  (** [torch.squeeze] *)
  squeeze : Tensor -> Tensor;
  (** [torch.nn.functional.nll_loss(outputs, targets)] *)
  nll_loss : Tensor -> Tensor -> Tensor;
  (** [copy_data_to_device(data, device)] *)
  copy_data_to_device : Tensor * Tensor -> device -> Tensor * Tensor;
  (** [MulticlassAccuracy.compute()] on what was accumulated by [update]
      since the last [reset], oldest first *)
  accuracy_of : list (Tensor * Tensor) -> Tensor
}.

(** [Batch = Tuple[torch.Tensor, torch.Tensor]] *)
Definition Batch `{Tensors} : Type := (Tensor * Tensor)%type.

(** [transforms.ToTensor()], [transforms.Normalize(mean, std)] *)
Inductive transform : Type :=
| ToTensor
| Normalize (mean std : list float).

(** [datasets.MNIST(root, train=, download=, transform=Compose(...))] *)
Record MNIST : Type := mkMNIST {
  root : string;
  train : bool;
  download : bool;
  transform_ : list transform
}.

(** [DataLoader(dataset, batch_size=, pin_memory=)] *)
Record DataLoader : Type := mkDataLoader {
  dataset : MNIST;
  batch_size : pyval;
  pin_memory : bool
}.

(** [TensorBoardLogger(path)] *)
Record TensorBoardLogger : Type := mkTensorBoardLogger {
  path : string
}.

(** [MulticlassAccuracy(device=)] *)
Record MulticlassAccuracy : Type := mkMulticlassAccuracy {
  metric_device : device
}.

(** [Adadelta(params, lr=)] and [StepLR(optimizer, step_size=, gamma=)] *)
Record Adadelta (Module_ : Type) : Type := mkAdadelta {
  params_of : Module_;
  optimizer_lr : pyval
}.
Arguments mkAdadelta {Module_}.

Record StepLR (Module_ : Type) : Type := mkStepLR {
  optimizer : Adadelta Module_;
  step_size : Z;
  scheduler_gamma : pyval
}.
Arguments mkStepLR {Module_}.

(** The part of the framework's [State] that the script reads:
    [state.eval_state.progress.num_steps_completed]. *)
Record State : Type := mkState {
  eval_state_progress_num_steps_completed : Z
}.

End Torch.
Export Torch.

(* ===================================================================== *)
(** ** class Net *)

Module Net.

Record Net : Type := mkNet {
  conv1 : op;
  conv2 : op;
  dropout1 : op;
  dropout2 : op;
  fc1 : op;
  fc2 : op
}.

Definition __init__ : Net :=
  {| conv1 := Conv2d 1 32 3 1;
     conv2 := Conv2d 32 64 3 1;
     dropout1 := Dropout 0.25;
     dropout2 := Dropout 0.5;
     fc1 := Linear 9216 128;
     fc2 := Linear 128 10 |}.

Definition forward `{Tensors} (self : Net) (x : Tensor) : Tensor :=
  let x := apply (conv1 self) x in
  let x := apply relu x in
  let x := apply (conv2 self) x in
  let x := apply relu x in
  let x := apply (max_pool2d 2) x in
  let x := apply (dropout1 self) x in
  let x := apply (flatten 1) x in
  let x := apply (fc1 self) x in
  let x := apply relu x in
  let x := apply (dropout2 self) x in
  let x := apply (fc2 self) x in
  let output := apply (log_softmax 1) x in
  output.

End Net.

(* ===================================================================== *)
(** ** class MyUnit(AutoUnit[Batch]) *)

Module MyUnit.

(** The keyword arguments that [MyUnit.__init__] hands on to
    [AutoUnit.__init__]; the framework keeps them ([self.module],
    [self.device], ...). *)
Record AutoUnit : Type := mkAutoUnit {
  module : Net.Net;
  device_ : device;
  strategy : string;
  log_frequency_steps : pyval;
  precision : pyval;
  gradient_accumulation_steps : Z;
  detect_anomaly : bool;
  clip_grad_norm : float
}.

Section Objects.
Context `{Tensors}.

(** The attributes of a [MyUnit] object. *)
Record MyUnit : Type := mkMyUnit {
  super : AutoUnit;
  tb_logger : TensorBoardLogger;
  lr : pyval;
  gamma : pyval;
  train_accuracy : MulticlassAccuracy;
  loss : option Tensor
}.

Definition __init__ (tb_logger : TensorBoardLogger)
    (train_accuracy : MulticlassAccuracy) (lr gamma : pyval)
    (kwargs : AutoUnit) : MyUnit :=
  {| super := kwargs;
     tb_logger := tb_logger;
     lr := lr;
     gamma := gamma;
     train_accuracy := train_accuracy;
     loss := None |}.

(** What a method of the unit does to the objects it holds: the calls on
    the logger and on the metric, and the call of the inherited hook. *)
Inductive effect : Type :=
| tb_logger_log (name : string) (data : option Tensor) (step : Z)
| train_accuracy_update (outputs targets : Tensor)
| train_accuracy_compute
| train_accuracy_reset
| super_on_train_epoch_end (state : State).

(** The state a method runs in: the unit, what the metric has accumulated
    since its last reset, and the effects so far (oldest first). *)
Record heap : Type := mkHeap {
  self : MyUnit;
  accumulated : list (Tensor * Tensor);
  effects : list effect
}.

(** Methods are state transformers on [heap]. *)
Definition method (A : Type) : Type := heap -> A * heap.

Definition ret {A : Type} (a : A) : method A := fun h => (a, h).

Definition bind {A B : Type} (m : method A) (k : A -> method B)
  : method B :=
  fun h => let '(a, h') := m h in k a h'.

End Objects.

Notation "x <~ m ;; k" := (bind m (fun x => k))
  (at level 100, m at next level, right associativity).
Notation "m ;;; k" := (bind m (fun _ => k))
  (at level 100, right associativity).

Section Methods.
Context `{Tensors}.

Definition get_self : method MyUnit := fun h => (self h, h).

Definition emit (e : effect) : method unit :=
  fun h => (tt, mkHeap (self h) (accumulated h) (effects h ++ [e])).

(** [self.loss = loss] *)
Definition set_loss (l : Tensor) : method unit :=
  fun h =>
    let u := self h in
    (tt, mkHeap (mkMyUnit (super u) (tb_logger u) (lr u) (gamma u)
                          (train_accuracy u) (Some l))
                (accumulated h) (effects h)).

(** [self.train_accuracy.update(outputs, targets)] *)
Definition update (outputs targets : Tensor) : method unit :=
  fun h =>
    (tt, mkHeap (self h) (accumulated h ++ [(outputs, targets)])
                (effects h ++ [train_accuracy_update outputs targets])).

(** [self.train_accuracy.compute()] *)
Definition compute : method Tensor :=
  fun h =>
    (accuracy_of (accumulated h),
     mkHeap (self h) (accumulated h) (effects h ++ [train_accuracy_compute])).

(** [self.train_accuracy.reset()] *)
Definition reset : method unit :=
  fun h => (tt, mkHeap (self h) [] (effects h ++ [train_accuracy_reset])).

Definition configure_optimizers_and_lr_scheduler
    (module : Net.Net) : method (Adadelta Net.Net * StepLR Net.Net) :=
  self <~ get_self ;;
  let optimizer := mkAdadelta module (lr self) in
  let lr_scheduler := mkStepLR optimizer 1 (gamma self) in
  ret (optimizer, lr_scheduler).

Definition compute_loss (state : State) (data : Batch)
  : method (Tensor * Tensor) :=
  self <~ get_self ;;
  let '(inputs, targets) := data in
  let outputs := Net.forward (module (super self)) inputs in
  let outputs := squeeze outputs in
  let loss := nll_loss outputs targets in
  ret (loss, outputs).

Definition update_metrics (state : State) (data : Batch)
    (loss outputs : Tensor) : method unit :=
  set_loss loss ;;;
  let '(_, targets) := data in
  update outputs targets.

Definition log_metrics (state : State) (step : Z)
    (interval : string) : method unit :=
  self <~ get_self ;;
  emit (tb_logger_log "loss" (loss self) step) ;;;
  accuracy <~ compute ;;
  emit (tb_logger_log "accuracy" (Some accuracy) step).

Definition on_train_epoch_end (state : State) : method unit :=
  emit (super_on_train_epoch_end state) ;;;
  (* reset the metric every epoch *)
  reset.

Definition eval_step (state : State) (data : Batch)
  : method unit :=
  self <~ get_self ;;
  let step_count := eval_state_progress_num_steps_completed state in
  let data := copy_data_to_device data (device_ (super self)) in
  let '(inputs, targets) := data in
  let outputs := Net.forward (module (super self)) inputs in
  let loss := nll_loss outputs targets in
  emit (tb_logger_log "evaluation loss" (Some loss) step_count).

(** A call of one of the methods above by the framework, with its
    arguments. *)
Inductive invocation : Type :=
| call_configure_optimizers_and_lr_scheduler (module : Net.Net)
| call_compute_loss (state : State) (data : Batch)
| call_update_metrics (state : State) (data : Batch) (loss outputs : Tensor)
| call_log_metrics (state : State) (step : Z) (interval : string)
| call_on_train_epoch_end (state : State)
| call_eval_step (state : State) (data : Batch).

Definition invoke (i : invocation) : method unit :=
  match i with
  | call_configure_optimizers_and_lr_scheduler module =>
      configure_optimizers_and_lr_scheduler module ;;; ret tt
  | call_compute_loss state data => compute_loss state data ;;; ret tt
  | call_update_metrics state data loss outputs =>
      update_metrics state data loss outputs
  | call_log_metrics state step interval => log_metrics state step interval
  | call_on_train_epoch_end state => on_train_epoch_end state
  | call_eval_step state data => eval_step state data
  end.

(** The methods the framework calls during a run, in order. *)
Fixpoint run (calls : list invocation) : method unit :=
  match calls with
  | [] => ret tt
  | i :: rest => invoke i ;;; run rest
  end.

(** The heap right after [MyUnit(...)]: nothing accumulated, no effect. *)
Definition fresh (u : MyUnit) : heap := mkHeap u [] [].

End Methods.

End MyUnit.

(* ===================================================================== *)
(** ** get_args and main *)

Module Main.

Import Argparse.

#[local] Set Warnings "-inexact-float".

(** [get_args]: parse command line arguments. *)
Definition the_parser : ArgumentParser_t :=
  let parser := ArgumentParser in
  let parser :=
    add_argument parser "--seed" Store TInt (PyInt 1) None
      (Some "S") (Some "random seed (default: 1)") in
  let parser :=
    add_argument parser "--batch-size" Store TInt (PyInt 64) None
      (Some "N") (Some "input batch size for training (default: 64)") in
  let parser :=
    add_argument parser "--test-batch-size" Store TInt (PyInt 1000) None
      (Some "N") (Some "input batch size for testing (default: 1000)") in
  let parser :=
    add_argument parser "--epochs" Store TInt (PyInt 14) None
      (Some "N") (Some "number of epochs to train (default: 14)") in
  let parser :=
    add_argument parser "--lr" Store TFloat (PyFloat 1.0) None
      (Some "LR") (Some "learning rate (default: 1.0)") in
  let parser :=
    add_argument parser "--gamma" Store TFloat (PyFloat 0.7) None
      (Some "M") (Some "Learning rate step gamma (default: 0.7)") in
  let parser :=
    add_argument parser "--save-model" StoreTrue TIdentity (PyBool false) None
      None (Some "For Saving the current Model") in
  let parser :=
    add_argument parser "--log-frequency-steps" Store TInt (PyInt 10) None
      None (Some "log every n steps") in
  let parser :=
    add_argument parser "--precision" Store TStr PyNone
      (Some ["fp16"; "bf16"]) None (Some "fp16 or bf16") in
  let parser :=
    add_argument parser "--eval_max_steps_per_epoch" Store TInt (PyInt 20)
      None None
      (Some "the max number of steps to run per epoch for evaluation") in
  parser.

Definition get_args `{Builtins} (argv : list string) : exn + Namespace :=
  parse_args the_parser argv.

(** What the process finds around it: the device that [init_from_env]
    selects, the directory that [tempfile.mkdtemp] creates and the text that
    [get_timer_summary] returns after the run. *)
Record World : Type := mkWorld {
  init_from_env_result : device;
  mkdtemp_result : string;
  timer_summary : string
}.

(** [init_fit_state(train_dataloader=, eval_dataloader=, max_epochs=)] *)
Record FitState : Type := mkFitState {
  train_dataloader : DataLoader;
  eval_dataloader : DataLoader;
  max_epochs : pyval
}.

Section Script.
Context `{Tensors} `{Builtins}.

(** The calls that [main] makes into the libraries, with their
    arguments. *)
Inductive call : Type :=
| do_seed (s : pyval)
| do_init_from_env
| do_torch_device (s : string)
| do_mkdtemp
| do_TensorBoardLogger (path : string)
| do_Compose (transforms : list transform)
| do_MNIST (d : MNIST)
| do_DataLoader (d : DataLoader)
| do_Net
| do_MulticlassAccuracy (d : device)
| do_AutoUnit_init (kwargs : MyUnit.AutoUnit)
| do_init_fit_state (state : FitState)
| do_fit (state : FitState) (my_unit : MyUnit.MyUnit)
| do_get_timer_summary (state : FitState)
| do_print (s : string)
| do_state_dict (module : Net.Net)
| do_torch_save (module : Net.Net) (f : string).

(** A procedure of the script: it extends the trace of library calls and
    returns, or raises. *)
Definition proc (A : Type) : Type := list call -> (exn + A) * list call.

Definition ret {A : Type} (a : A) : proc A := fun t => (inr a, t).

Definition raise {A : Type} (e : exn) : proc A := fun t => (inl e, t).

Definition bind {A B : Type} (m : proc A) (k : A -> proc B) : proc B :=
  fun t =>
    match m t with
    | (inl e, t') => (inl e, t')
    | (inr a, t') => k a t'
    end.

(** A library call that returns [a]. *)
Definition perform {A : Type} (c : call) (a : A) : proc A :=
  fun t => (inr a, t ++ [c]).

(** The result of a function of the script that may raise. *)
Definition lift {A : Type} (r : exn + A) : proc A :=
  match r with
  | inl e => raise e
  | inr a => ret a
  end.

(** [args.name] *)
Definition getattr (args : Namespace) (name : string) : proc pyval :=
  match args !! name with
  | Some v => ret v
  | None => raise (AttributeError name)
  end.

End Script.

Notation "x <- m ;; k" := (bind m (fun x => k))
  (at level 100, m at next level, right associativity).
Notation "m ;;; k" := (bind m (fun _ => k))
  (at level 100, right associativity).

Section Procedures.
Context `{Tensors} `{Builtins}.

(** [MyUnit(tb_logger=..., ..., **kwargs)]: [MyUnit.__init__] passes
    [kwargs] to [AutoUnit.__init__] and sets its own attributes. *)
Definition new_MyUnit (tb_logger : TensorBoardLogger)
    (train_accuracy : MulticlassAccuracy) (lr gamma : pyval)
    (kwargs : MyUnit.AutoUnit) : proc MyUnit.MyUnit :=
  perform (do_AutoUnit_init kwargs) tt ;;;
  ret (MyUnit.__init__ tb_logger train_accuracy lr gamma kwargs).

(** [main] after the arguments are parsed. *)
Definition main_with (w : World) (args : Namespace) : proc unit :=
  args_seed <- getattr args "seed" ;;
  perform (do_seed args_seed) tt ;;;
  (* device and process group initialization *)
  device <- perform do_init_from_env (init_from_env_result w) ;;
  (* avoid torch autocast exception *)
  device <-
    (if String.eqb (type device) "mps"
     then perform (do_torch_device "cpu") (torch_device "cpu")
     else ret device) ;;
  path <- perform do_mkdtemp (mkdtemp_result w) ;;
  tb_logger <- perform (do_TensorBoardLogger path) (mkTensorBoardLogger path) ;;
  let on_cuda := String.eqb (type device) "cuda" in
  transform <-
    (let ts := [ToTensor; Normalize [0.1307%float] [0.3081%float]] in
     perform (do_Compose ts) ts) ;;
  train_dataset <-
    (let d := mkMNIST "../data" true true transform in
     perform (do_MNIST d) d) ;;
  eval_dataset <-
    (let d := mkMNIST "../data" false false transform in
     perform (do_MNIST d) d) ;;
  args_batch_size <- getattr args "batch_size" ;;
  train_dataloader <-
    (let d := mkDataLoader train_dataset args_batch_size on_cuda in
     perform (do_DataLoader d) d) ;;
  args_test_batch_size <- getattr args "test_batch_size" ;;
  eval_dataloader <-
    (let d := mkDataLoader eval_dataset args_test_batch_size on_cuda in
     perform (do_DataLoader d) d) ;;
  module <- perform do_Net Net.__init__ ;;
  train_accuracy <-
    perform (do_MulticlassAccuracy device) (mkMulticlassAccuracy device) ;;
  args_lr <- getattr args "lr" ;;
  args_gamma <- getattr args "gamma" ;;
  args_log_frequency_steps <- getattr args "log_frequency_steps" ;;
  args_precision <- getattr args "precision" ;;
  my_unit <-
    new_MyUnit tb_logger train_accuracy args_lr args_gamma
      {| MyUnit.module := module;
         MyUnit.device_ := device;
         MyUnit.strategy := "ddp";
         MyUnit.log_frequency_steps := args_log_frequency_steps;
         MyUnit.precision := args_precision;
         MyUnit.gradient_accumulation_steps := 4;
         MyUnit.detect_anomaly := true;
         MyUnit.clip_grad_norm := 1.0 |} ;;
  args_epochs <- getattr args "epochs" ;;
  state <-
    (let st := mkFitState train_dataloader eval_dataloader args_epochs in
     perform (do_init_fit_state st) st) ;;
  perform (do_fit state my_unit) tt ;;;
  summary <- perform (do_get_timer_summary state) (timer_summary w) ;;
  perform (do_print summary) tt ;;;
  args_save_model <- getattr args "save_model" ;;
  if truthy args_save_model then
    state_dict <- perform (do_state_dict module) module ;;
    perform (do_torch_save state_dict "mnist_cnn.pt") tt
  else ret tt.

Definition main (w : World) (argv : list string) : proc unit :=
  (* parse command line arguments *)
  args <- lift (get_args argv) ;;
  main_with w args.

(** A run of [main] from the empty trace: how it ends, and the calls it
    made. *)
Definition run_main (w : World) (argv : list string)
  : (exn + unit) * list call :=
  main w argv [].

End Procedures.

End Main.

(* ===================================================================== *)
(** ** Instances on which the script can be run *)

Module Concrete.

(** *** [int] and [float] on plain ASCII literals *)

Definition is_space (c : ascii) : bool :=
  existsb (Ascii.eqb c)
    [" "; "009"; "010"; "011"; "012"; "013"]%char.

Fixpoint lstrip_spaces (s : string) : string :=
  match s with
  | String c r => if is_space c then lstrip_spaces r else s
  | EmptyString => EmptyString
  end.

Fixpoint rstrip_spaces (s : string) : string :=
  match s with
  | String c r =>
      match rstrip_spaces r with
      | EmptyString => if is_space c then EmptyString else String c EmptyString
      | r' => String c r'
      end
  | EmptyString => EmptyString
  end.

Definition digit_value (c : ascii) : Z := Z.of_nat (nat_of_ascii c) - 48.

(** Digits with single underscores between them; [after_digit] tells
    whether the character before was a digit, [acc] is the value so far. *)
Fixpoint digits_value (s : string) (after_digit : bool) (acc : Z)
  : option Z :=
  match s with
  | EmptyString => if after_digit then Some acc else None
  | String c r =>
      if Str.is_digit c then digits_value r true (10 * acc + digit_value c)
      else if Ascii.eqb c "_"%char && after_digit then
        match r with
        | String d _ => if Str.is_digit d then digits_value r false acc else None
        | EmptyString => None
        end
      else None
  end.

(** [int(s)] for a string of ASCII characters: surrounding white space, a
    sign, decimal digits. *)
Definition ascii_int (s : string) : option Z :=
  match rstrip_spaces (lstrip_spaces s) with
  | String "-" r => option_map Z.opp (digits_value r false 0)
  | String "+" r => digits_value r false 0
  | r => digits_value r false 0
  end.

Fixpoint float_of_positive (p : positive) : float :=
  match p with
  | xH => 1%float
  | xO q => (2 * float_of_positive q)%float
  | xI q => (2 * float_of_positive q + 1)%float
  end.

Definition float_of_Z (z : Z) : float :=
  match z with
  | Z0 => 0%float
  | Zpos p => float_of_positive p
  | Zneg p => (- float_of_positive p)%float
  end.

Fixpoint all_digits (s : string) : bool :=
  match s with
  | EmptyString => true
  | String c r => Str.is_digit c && all_digits r
  end.

(** The value of [whole.frac] when the digits make a number below 2^53 and
    there are at most 22 of them after the point: numerator and denominator
    are then floats, and their quotient is the nearest float. *)
Definition decimal_value (whole frac : string) : option float :=
  if all_digits whole && all_digits frac
     && negb (String.eqb (whole ++ frac)%string "") then
    match digits_value ("0" ++ whole ++ frac)%string false 0 with
    | Some m =>
        let k := Z.of_nat (String.length frac) in
        if (m <? 2 ^ 53) && (k <=? 22)
        then Some (float_of_Z m / float_of_Z (10 ^ k))%float
        else None
    | None => None
    end
  else None.

(** [float(s)] restricted to short decimal literals [digits[.digits]] with
    an optional minus sign; other strings are not converted. *)
Definition ascii_float (s : string) : option float :=
  let '(negative, body) :=
    match s with
    | String "-" r => (true, r)
    | _ => (false, s)
    end in
  let v :=
    match Str.split1 "."%char body with
    | Some (whole, frac) => decimal_value whole frac
    | None => decimal_value body ""
    end in
  option_map (fun f => if negative then (- f)%float else f) v.

#[export] Instance ascii_builtins : Builtins :=
  {| int_of_str := ascii_int; float_of_str := ascii_float |}.

#[local] Set Warnings "-register-all".

(** *** Tensors as the expressions that compute them *)

Inductive expr : Type :=
| input (name : string)
| applied (f : op) (x : expr)
| squeezed (x : expr)
| nll (outputs targets : expr)
| on_device (d : device) (x : expr)
| accuracy (updates : list (expr * expr)).

#[export] Instance symbolic : Tensors :=
  {| Tensor := expr;
     apply := applied;
     squeeze := squeezed;
     nll_loss := nll;
     copy_data_to_device := fun data d =>
       (on_device d (fst data), on_device d (snd data));
     accuracy_of := accuracy |}.

(** A machine without accelerator, one with CUDA, and one with MPS. *)
Definition cpu_world : Main.World :=
  Main.mkWorld (mkDevice "cpu" None) "/tmp/tmpdir" "timer summary".

Definition cuda_world : Main.World :=
  Main.mkWorld (mkDevice "cuda" (Some 0)) "/tmp/tmpdir" "timer summary".

Definition mps_world : Main.World :=
  Main.mkWorld (mkDevice "mps" None) "/tmp/tmpdir" "timer summary".

End Concrete.

(* ===================================================================== *)
(** ** The vocabulary of the properties *)

Module Props.

Import Argparse Main.

#[local] Set Warnings "-inexact-float".

(** The layers and functions that [Net.forward] applies, first one first. *)
Definition forward_sequence (self : Net.Net) : list op :=
  [ Net.conv1 self; relu; Net.conv2 self; relu; max_pool2d 2;
    Net.dropout1 self; flatten 1; Net.fc1 self; relu; Net.dropout2 self;
    Net.fc2 self; log_softmax 1 ].

(** The [Namespace] of the defaults. *)
Definition defaults : Namespace :=
  list_to_map
    [ ("seed", PyInt 1); ("batch_size", PyInt 64);
      ("test_batch_size", PyInt 1000); ("epochs", PyInt 14);
      ("lr", PyFloat 1.0); ("gamma", PyFloat 0.7);
      ("save_model", PyBool false); ("log_frequency_steps", PyInt 10);
      ("precision", PyNone); ("eval_max_steps_per_epoch", PyInt 20) ].

(** The argument string is [--save-model] or one of the abbreviations of it
    that argparse accepts ([--sa] is the shortest that no other option
    shares). *)
Definition is_save_model_flag (arg : string) : bool :=
  String.prefix "--sa" arg && String.prefix arg "--save-model".

(** The flag [--save-model] was passed. *)
Definition save_model_passed (argv : list string) : bool :=
  existsb is_save_model_flag argv.

(** The device that [main] goes on with. *)
Definition selected_device (w : World) : device :=
  if String.eqb (type (init_from_env_result w)) "mps"
  then torch_device "cpu"
  else init_from_env_result w.

(** The action is the [store_true] one. *)
Definition is_store_true (a : Action) : bool :=
  match kind a with StoreTrue => true | _ => false end.

(** The argument string was classified as a [store_true] option without an
    explicit argument. *)
Definition is_flag_class (c : arg_class) : bool :=
  match c with
  | ClsO (Some a, _, None) => is_store_true a
  | _ => false
  end.

(** What holds of every entry of the option table of the script's parser:
    the [store_true] action is [--save-model] with destination
    [save_model], and no [store] action has that destination. *)
Definition entry_ok (e : string * Action) : bool :=
  let '(os, a) := e in
  match kind a with
  | Help => true
  | StoreTrue =>
      second_char_is_prefix os && String.eqb os "--save-model"
      && String.eqb (dest a) "save_model"
  | Store => negb (String.eqb (dest a) "save_model")
  end.

(** The option of a classified argument string is in the table. *)
Definition known (sc : string * arg_class) : Prop :=
  match snd sc with
  | ClsO (Some a, os, _) => In (os, a) (option_string_actions the_parser)
  | _ => True
  end.

(** The attributes that [main] reads. *)
Record read_args : Type := mkReadArgs {
  a_seed : pyval;
  a_batch_size : pyval;
  a_test_batch_size : pyval;
  a_lr : pyval;
  a_gamma : pyval;
  a_log_frequency_steps : pyval;
  a_precision : pyval;
  a_epochs : pyval;
  a_save_model : pyval
}.

(** [args] has the attributes [r]. *)
Definition has_args (args : Namespace) (r : read_args) : Prop :=
  args !! "seed" = Some (a_seed r)
  /\ args !! "batch_size" = Some (a_batch_size r)
  /\ args !! "test_batch_size" = Some (a_test_batch_size r)
  /\ args !! "lr" = Some (a_lr r)
  /\ args !! "gamma" = Some (a_gamma r)
  /\ args !! "log_frequency_steps" = Some (a_log_frequency_steps r)
  /\ args !! "precision" = Some (a_precision r)
  /\ args !! "epochs" = Some (a_epochs r)
  /\ args !! "save_model" = Some (a_save_model r).

(** The transform, the datasets and the loaders of a run. *)
Definition the_transform : list transform :=
  [ToTensor; Normalize [0.1307%float] [0.3081%float]].

Definition the_train_dataloader (w : World) (r : read_args) : DataLoader :=
  mkDataLoader (mkMNIST "../data" true true the_transform) (a_batch_size r)
    (String.eqb (type (selected_device w)) "cuda").

Definition the_eval_dataloader (w : World) (r : read_args) : DataLoader :=
  mkDataLoader (mkMNIST "../data" false false the_transform)
    (a_test_batch_size r)
    (String.eqb (type (selected_device w)) "cuda").

(** The keyword arguments that reach [AutoUnit.__init__] in a run. *)
Definition the_kwargs (w : World) (r : read_args) : MyUnit.AutoUnit :=
  {| MyUnit.module := Net.__init__;
     MyUnit.device_ := selected_device w;
     MyUnit.strategy := "ddp";
     MyUnit.log_frequency_steps := a_log_frequency_steps r;
     MyUnit.precision := a_precision r;
     MyUnit.gradient_accumulation_steps := 4;
     MyUnit.detect_anomaly := true;
     MyUnit.clip_grad_norm := 1.0 |}.

(** The state that [init_fit_state] returns in a run. *)
Definition the_state (w : World) (r : read_args) : FitState :=
  mkFitState (the_train_dataloader w r) (the_eval_dataloader w r) (a_epochs r).

(** The flags of the script that take a number, with the attribute each
    sets and its [type]. *)
Definition numeric_flags : list (string * string * type_func) :=
  [ ("--seed", "seed", TInt);
    ("--batch-size", "batch_size", TInt);
    ("--test-batch-size", "test_batch_size", TInt);
    ("--epochs", "epochs", TInt);
    ("--lr", "lr", TFloat);
    ("--gamma", "gamma", TFloat);
    ("--log-frequency-steps", "log_frequency_steps", TInt);
    ("--eval_max_steps_per_epoch", "eval_max_steps_per_epoch", TInt) ].

(** What holds of every entry of the option table, continued: an action
    that stores sets one of the ten attributes, and the one that sets
    [precision] has the two choices. *)
Definition entry_dest_ok (e : string * Action) : bool :=
  let a := snd e in
  match kind a with
  | Help => true
  | _ =>
      match defaults !! dest a with Some _ => true | None => false end
      && (if String.eqb (dest a) "precision"
          then match choices a with
               | Some [x; y] => String.eqb x "fp16" && String.eqb y "bf16"
               | _ => false
               end
          else true)
  end.

(** No argument string of [argv] is an abbreviation that two options
    share. *)
Definition unambiguous (argv : list string) : Prop :=
  exists cl, classify the_parser argv = inr cl.

Section Traces.
Context `{Tensors} `{Builtins}.

(** [type(s)] for the [type] of a numeric flag. *)
Definition convert (ty : type_func) (s : string) : option pyval :=
  match ty with
  | TInt => option_map PyInt (int_of_str s)
  | TFloat => option_map PyFloat (float_of_str s)
  | TStr | TIdentity => Some (PyStr s)
  end.

(** The number of [reset()] calls on the metric among the effects. *)
Definition is_reset (e : MyUnit.effect) : bool :=
  match e with
  | MyUnit.train_accuracy_reset => true
  | _ => false
  end.

Definition resets (es : list MyUnit.effect) : nat :=
  length (List.filter is_reset es).

Definition is_on_train_epoch_end (i : MyUnit.invocation) : bool :=
  match i with
  | MyUnit.call_on_train_epoch_end _ => true
  | _ => false
  end.

(** The loss given to the latest [update_metrics] among [calls], if any;
    [l] when there is none. *)
Fixpoint last_loss (calls : list MyUnit.invocation) (l : option Tensor)
  : option Tensor :=
  match calls with
  | [] => l
  | MyUnit.call_update_metrics _ _ loss _ :: rest => last_loss rest (Some loss)
  | _ :: rest => last_loss rest l
  end.

(** The keyword arguments of the [AutoUnit] constructions in a trace. *)
Definition units_built (t : list call) : list MyUnit.AutoUnit :=
  omap (fun c => match c with do_AutoUnit_init k => Some k | _ => None end) t.

(** The [DataLoader]s built in a trace. *)
Definition loaders_built (t : list call) : list DataLoader :=
  omap (fun c => match c with do_DataLoader d => Some d | _ => None end) t.

(** The states that [init_fit_state] built in a trace. *)
Definition fit_states_built (t : list call) : list FitState :=
  omap (fun c => match c with do_init_fit_state s => Some s | _ => None end) t.

(** The calls of [fit] in a trace. *)
Definition fits (t : list call) : list (FitState * MyUnit.MyUnit) :=
  omap (fun c => match c with do_fit s u => Some (s, u) | _ => None end) t.

(** The files that [torch.save] wrote in a trace. *)
Definition files_saved (t : list call) : list string :=
  omap (fun c => match c with do_torch_save _ f => Some f | _ => None end) t.

(** The unit of a run. *)
Definition the_unit (w : World) (r : read_args) : MyUnit.MyUnit :=
  MyUnit.__init__ (mkTensorBoardLogger (mkdtemp_result w))
    (mkMulticlassAccuracy (selected_device w)) (a_lr r) (a_gamma r)
    (the_kwargs w r).

(** The calls of a run of [main] whose arguments parsed, in order. *)
Definition script (w : World) (r : read_args) : list call :=
  [ do_seed (a_seed r); do_init_from_env ]
  ++ (if String.eqb (type (init_from_env_result w)) "mps"
      then [do_torch_device "cpu"] else [])
  ++ [ do_mkdtemp;
       do_TensorBoardLogger (mkdtemp_result w);
       do_Compose the_transform;
       do_MNIST (mkMNIST "../data" true true the_transform);
       do_MNIST (mkMNIST "../data" false false the_transform);
       do_DataLoader (the_train_dataloader w r);
       do_DataLoader (the_eval_dataloader w r);
       do_Net;
       do_MulticlassAccuracy (selected_device w);
       do_AutoUnit_init (the_kwargs w r);
       do_init_fit_state (the_state w r);
       do_fit (the_state w r) (the_unit w r);
       do_get_timer_summary (the_state w r);
       do_print (timer_summary w) ]
  ++ (if truthy (a_save_model r)
      then [ do_state_dict Net.__init__;
             do_torch_save Net.__init__ "mnist_cnn.pt" ]
      else []).

(** What the metric holds after [calls], when it held [acc] before: the
    pairs that [update_metrics] gave it since the last
    [on_train_epoch_end], oldest first. *)
Fixpoint accumulated_after (calls : list MyUnit.invocation)
    (acc : list (Tensor * Tensor)) : list (Tensor * Tensor) :=
  match calls with
  | [] => acc
  | MyUnit.call_update_metrics _ data _ outputs :: rest =>
      accumulated_after rest (acc ++ [(outputs, snd data)])
  | MyUnit.call_on_train_epoch_end _ :: rest => accumulated_after rest []
  | _ :: rest => accumulated_after rest acc
  end.

(** The methods that assign an attribute of the unit or change what the
    metric holds. *)
Definition changes_state (i : MyUnit.invocation) : bool :=
  match i with
  | MyUnit.call_update_metrics _ _ _ _ => true
  | MyUnit.call_on_train_epoch_end _ => true
  | _ => false
  end.

(** What was logged under [name], oldest first. *)
Definition logged (name : string) (es : list MyUnit.effect)
  : list (option Tensor * Z) :=
  omap (fun e => match e with
                 | MyUnit.tb_logger_log n data step =>
                     if String.eqb n name then Some (data, step) else None
                 | _ => None
                 end) es.

(** The loss that [eval_step] computes for a batch. *)
Definition eval_loss (u : MyUnit.AutoUnit) (data : Batch) : Tensor :=
  let data := copy_data_to_device data (MyUnit.device_ u) in
  nll_loss (Net.forward (MyUnit.module u) (fst data)) (snd data).

(** What the [eval_step] calls among [calls] log. *)
Definition eval_entries (u : MyUnit.AutoUnit)
    (calls : list MyUnit.invocation) : list (option Tensor * Z) :=
  omap (fun i => match i with
                 | MyUnit.call_eval_step state data =>
                     Some (Some (eval_loss u data),
                           eval_state_progress_num_steps_completed state)
                 | _ => None
                 end) calls.

(** The device types that [torch.device] was called with in a trace. *)
Definition devices_made (t : list call) : list string :=
  omap (fun c => match c with do_torch_device s => Some s | _ => None end) t.

(** The modules whose [state_dict] was taken in a trace. *)
Definition state_dicts_taken (t : list call) : list Net.Net :=
  omap (fun c => match c with do_state_dict m => Some m | _ => None end) t.

(** The number of [tb_logger.log] calls among the effects. *)
Definition log_calls (es : list MyUnit.effect) : nat :=
  length (List.filter (fun e => match e with
                                | MyUnit.tb_logger_log _ _ _ => true
                                | _ => false
                                end) es).

(** How many times a method writes to the logger. *)
Definition logs_of (i : MyUnit.invocation) : nat :=
  match i with
  | MyUnit.call_log_metrics _ _ _ => 2
  | MyUnit.call_eval_step _ _ => 1
  | _ => 0
  end.

End Traces.

End Props.

(* ===================================================================== *)
(** ** Properties of Net and MyUnit *)

Import Props.

Section UnitProperties.
Context `{Tensors}.

(** C6: [Net.forward] applies, in this order, conv1, ReLU, conv2, ReLU, the
    2x2 max-pool, dropout1, flatten from dimension 1, fc1, ReLU, dropout2,
    fc2 and log_softmax over dimension 1, and returns the result; the layers
    are those that [Net.__init__] creates. *)
Theorem forward_applies_fixed_sequence (self : Net.Net) (x : Tensor) :
  Net.forward self x
  = fold_left (fun t f => apply f t) (forward_sequence self) x
  /\ forward_sequence Net.__init__
     = [ Conv2d 1 32 3 1; relu; Conv2d 32 64 3 1; relu; max_pool2d 2;
         Dropout 0.25; flatten 1; Linear 9216 128; relu; Dropout 0.5;
         Linear 128 10; log_softmax 1 ].
Proof.
  split.
  - unfold Net.forward, forward_sequence. cbn [fold_left]. reflexivity.
  - reflexivity.
Qed.

Lemma resets_app (es es' : list MyUnit.effect) :
  resets (es ++ es') = (resets es + resets es')%nat.
Proof.
  unfold resets. rewrite List.filter_app, length_app. reflexivity.
Qed.

(** What one invocation adds to the effects: one reset for
    [on_train_epoch_end], none for the others. *)
Lemma invoke_resets (i : MyUnit.invocation) (h : MyUnit.heap) :
  resets (MyUnit.effects (snd (MyUnit.invoke i h)))
  = (resets (MyUnit.effects h)
     + if is_on_train_epoch_end i then 1 else 0)%nat.
Proof.
  destruct i as [m | st [inp tg] | st [inp tg] l o | st step iv | st
                | st [inp tg]];
    cbn -[resets];
    try destruct (copy_data_to_device _ _);
    cbn -[resets];
    rewrite ?resets_app; cbn; lia.
Qed.

Lemma run_cons (i : MyUnit.invocation) (calls : list MyUnit.invocation)
    (h : MyUnit.heap) :
  MyUnit.run (i :: calls) h = MyUnit.run calls (snd (MyUnit.invoke i h)).
Proof.
  cbn [MyUnit.run]. unfold MyUnit.bind.
  destruct (MyUnit.invoke i h) as [[] h']. reflexivity.
Qed.

Lemma run_app (pre post : list MyUnit.invocation) (h : MyUnit.heap) :
  MyUnit.run (pre ++ post) h = MyUnit.run post (snd (MyUnit.run pre h)).
Proof.
  revert h. induction pre as [|i pre IH]; intros h.
  - reflexivity.
  - rewrite <- app_comm_cons, !run_cons. apply IH.
Qed.

(** C2: the metric is reset exactly once by every [on_train_epoch_end], right
    after the inherited hook, and by no other method: whatever methods the
    framework calls, and in whatever order, the number of [reset()] calls is
    the number of [on_train_epoch_end] calls; a fresh unit has made none. *)
Theorem train_accuracy_reset_once_per_epoch :
  (forall (state : State) (h : MyUnit.heap),
      MyUnit.effects (snd (MyUnit.on_train_epoch_end state h))
      = MyUnit.effects h
          ++ [MyUnit.super_on_train_epoch_end state;
              MyUnit.train_accuracy_reset])
  /\ (forall (i : MyUnit.invocation) (h : MyUnit.heap),
         resets (MyUnit.effects (snd (MyUnit.invoke i h)))
         = (resets (MyUnit.effects h)
            + if is_on_train_epoch_end i then 1 else 0)%nat)
  /\ (forall (calls : list MyUnit.invocation) (h : MyUnit.heap),
         resets (MyUnit.effects (snd (MyUnit.run calls h)))
         = (resets (MyUnit.effects h)
            + length (List.filter is_on_train_epoch_end calls))%nat)
  /\ (forall u : MyUnit.MyUnit, resets (MyUnit.effects (MyUnit.fresh u)) = 0%nat).
Proof.
  split; [|split; [|split]].
  - intros state h. cbn. rewrite <- app_assoc. reflexivity.
  - apply invoke_resets.
  - induction calls as [|i calls IH]; intros h.
    + cbn. lia.
    + rewrite run_cons, IH, invoke_resets.
      cbn [List.filter].
      destruct (is_on_train_epoch_end i); cbn; lia.
  - reflexivity.
Qed.

(** The attribute [loss] after some invocations. *)
Lemma loss_after_run (calls : list MyUnit.invocation) (h : MyUnit.heap) :
  MyUnit.loss (MyUnit.self (snd (MyUnit.run calls h)))
  = last_loss calls (MyUnit.loss (MyUnit.self h)).
Proof.
  revert h. induction calls as [|i calls IH]; intros h.
  - reflexivity.
  - rewrite run_cons, IH.
    destruct i as [m | st [inp tg] | st [inp tg] l o | st step iv | st
                  | st [inp tg]];
      cbn; try destruct (copy_data_to_device _ _); reflexivity.
Qed.

(** C8: [loss] is [None] in a new unit and only [update_metrics] assigns it:
    when [log_metrics] runs after any calls of the methods, what it logs
    under "loss" is the loss given to the latest [update_metrics] among
    them, and [None] when there was none. *)
Theorem log_metrics_logs_latest_loss
    (tb_logger : TensorBoardLogger) (train_accuracy : MulticlassAccuracy)
    (lr gamma : pyval) (kwargs : MyUnit.AutoUnit)
    (calls : list MyUnit.invocation)
    (state : State) (step : Z) (interval : string) :
  let u := MyUnit.__init__ tb_logger train_accuracy lr gamma kwargs in
  let before := snd (MyUnit.run calls (MyUnit.fresh u)) in
  MyUnit.loss u = None
  /\ MyUnit.effects
       (snd (MyUnit.run (calls ++ [MyUnit.call_log_metrics state step interval])
                        (MyUnit.fresh u)))
     = MyUnit.effects before
         ++ [ MyUnit.tb_logger_log "loss" (last_loss calls None) step;
              MyUnit.train_accuracy_compute;
              MyUnit.tb_logger_log "accuracy"
                (Some (accuracy_of (MyUnit.accumulated before))) step ].
Proof.
  intros u before. split; [reflexivity|].
  rewrite run_app. fold before.
  pose proof (loss_after_run calls (MyUnit.fresh u)) as Hloss.
  fold before in Hloss. cbn in Hloss.
  cbn. rewrite Hloss, <- !app_assoc. reflexivity.
Qed.

End UnitProperties.

(* ===================================================================== *)
(** ** Facts about the parser *)

Import Argparse Main.

Section ParserFacts.
Context `{Builtins}.

Lemma prefix_refl (s : string) : String.prefix s s = true.
Proof.
  induction s as [|c s IH]; [reflexivity|].
  cbn. destruct (ascii_dec c c); [exact IH | congruence].
Qed.

Lemma prefix_in_prefixes (s t : string) :
  String.prefix s t = true -> In s (Str.prefixes t).
Proof.
  revert s. induction t as [|c t IH]; intros [|d s] Hp; cbn in *;
    try discriminate; auto.
  destruct (ascii_dec d c) as [->|]; [|discriminate].
  right. apply in_map, IH, Hp.
Qed.

Lemma assoc_In (s : string) (l : list (string * Action)) (a : Action) :
  assoc s l = Some a -> In (s, a) l.
Proof.
  induction l as [|[k b] l IH]; cbn; [discriminate|].
  destruct (String.eqb_spec s k) as [->|]; intros Ha.
  - left. congruence.
  - right. auto.
Qed.

Lemma lookup_option_In (parser : ArgumentParser_t) (s : string) (a : Action) :
  lookup_option parser s = Some a -> In (s, a) (option_string_actions parser).
Proof. apply assoc_In. Qed.

(** An option tuple found by prefix names an entry of the table; without an
    explicit argument the string is a prefix of the option string. *)
Lemma get_option_tuples_In (parser : ArgumentParser_t) (arg os : string)
    (a : option Action) (e : option string) :
  In (a, os, e) (get_option_tuples parser arg) ->
  exists a', a = Some a' /\ In (os, a') (option_string_actions parser)
             /\ (e = None -> String.prefix arg os = true).
Proof.
  unfold get_option_tuples. intros Hin.
  destruct (second_char_is_prefix arg).
  - destruct (Str.split1 "=" arg) as [[p x]|];
      apply list_elem_of_In, list_elem_of_omap in Hin;
      destruct Hin as ([s b] & Hs & Hf); apply list_elem_of_In in Hs.
    + destruct (String.prefix p s); [|discriminate].
      injection Hf as <- <- <-. exists b. split; [|split]; auto. discriminate.
    + destruct (String.prefix arg s) eqn:Hp; [|discriminate].
      injection Hf as <- <- <-. exists b. auto.
  - apply list_elem_of_In, list_elem_of_omap in Hin.
    destruct Hin as ([s b] & Hs & Hf). apply list_elem_of_In in Hs.
    destruct (String.eqb s (substring 0 2 arg)).
    + injection Hf as <- <- <-. exists b. split; [|split]; auto. discriminate.
    + destruct (String.prefix arg s) eqn:Hp; [|discriminate].
      injection Hf as <- <- <-. exists b. auto.
Qed.

(** What [_parse_optional] returns for a known option. *)
Lemma parse_optional_In (parser : ArgumentParser_t) (arg os : string)
    (a : Action) (e : option string) :
  parse_optional parser arg = inr (Some (Some a, os, e)) ->
  In (os, a) (option_string_actions parser)
  /\ (e = None -> String.prefix arg os = true).
Proof.
  unfold parse_optional. destruct arg as [|c r]; [discriminate|].
  destruct (negb (Ascii.eqb c Str.minus)); [discriminate|].
  destruct (lookup_option parser (String c r)) as [b|] eqn:Hl.
  { intros [= <- <- <-]. split; [apply lookup_option_In, Hl|].
    intros _. apply prefix_refl. }
  destruct (String.length (String c r) =? 1)%nat; [discriminate|].
  destruct (Str.split1 "=" (String c r)) as [[p x]|].
  - destruct (lookup_option parser p) as [b|] eqn:Hp.
    { intros [= <- <- <-]. split; [apply lookup_option_In, Hp|discriminate]. }
    destruct (get_option_tuples parser (String c r)) as [|t [|t' ts]] eqn:Ht.
    + destruct (_ && _); [discriminate|].
      destruct (Str.contains _ _); discriminate.
    + intros [= ->].
      destruct (get_option_tuples_In parser (String c r) os (Some a) e)
        as (a' & [= <-] & Hin & Hpre); [rewrite Ht; left; reflexivity|]. auto.
    + discriminate.
  - destruct (get_option_tuples parser (String c r)) as [|t [|t' ts]] eqn:Ht.
    + destruct (_ && _); [discriminate|].
      destruct (Str.contains _ _); discriminate.
    + intros [= ->].
      destruct (get_option_tuples_In parser (String c r) os (Some a) e)
        as (a' & [= <-] & Hin & Hpre); [rewrite Ht; left; reflexivity|]. auto.
    + discriminate.
Qed.


(** **** The table of the script's parser *)

Lemma table_ok (os : string) (a : Action) :
  In (os, a) (option_string_actions the_parser) -> entry_ok (os, a) = true.
Proof.
  intros Hin.
  assert (Hall : forallb entry_ok (option_string_actions the_parser) = true)
    by reflexivity.
  rewrite forallb_forall in Hall. apply Hall, Hin.
Qed.

Lemma table_store_true (os : string) (a : Action) :
  In (os, a) (option_string_actions the_parser) ->
  kind a = StoreTrue ->
  os = "--save-model" /\ dest a = "save_model".
Proof.
  intros Hin Hk. apply table_ok in Hin. cbn in Hin. rewrite Hk in Hin.
  apply andb_prop in Hin as [Hin Hd]. apply andb_prop in Hin as [_ Ho].
  split; apply String.eqb_eq; assumption.
Qed.

Lemma table_store (os : string) (a : Action) :
  In (os, a) (option_string_actions the_parser) ->
  kind a = Store -> dest a <> "save_model".
Proof.
  intros Hin Hk. apply table_ok in Hin. cbn in Hin. rewrite Hk in Hin.
  apply negb_true_iff, String.eqb_neq in Hin. exact Hin.
Qed.

Lemma table_short_flag (os : string) (a : Action) :
  In (os, a) (option_string_actions the_parser) ->
  takes_one_argument a = false -> second_char_is_prefix os = false ->
  kind a = Help.
Proof.
  intros Hin Ht Hs. apply table_ok in Hin. cbn in Hin.
  unfold takes_one_argument in Ht.
  destruct (kind a); [discriminate| |reflexivity].
  rewrite Hs in Hin. discriminate.
Qed.

(** **** Taking actions *)

Lemma take_action_inr (a : Action) (args : list string) (ns ns' : Namespace) :
  take_action a args ns = inr ns' ->
  kind a <> Help
  /\ exists v, ns' = <[dest a := v]> ns
               /\ (kind a = StoreTrue -> v = PyBool true).
Proof.
  unfold take_action. destruct (get_values a args) as [|v]; [discriminate|].
  unfold call_action, setattr. destruct (kind a); intros [= <-].
  - split; [discriminate|]. exists v. split; [reflexivity|discriminate].
  - split; [discriminate|]. exists (PyBool true). auto.
Qed.

Lemma take_actions_head (a : Action) (args : list string)
    (rest : list (Action * list string)) (ns ns' : Namespace) :
  take_actions ((a, args) :: rest) ns = inr ns' -> kind a <> Help.
Proof.
  cbn. destruct (take_action a args ns) as [|ns1] eqn:Ht; [discriminate|].
  intros _. apply take_action_inr in Ht. tauto.
Qed.

(** One action of the script's parser: only [--save-model] touches
    [save_model], and it sets it to [True]. *)
Lemma take_one_action (os : string) (a : Action) (args : list string)
    (ns ns' : Namespace) (b : bool) :
  In (os, a) (option_string_actions the_parser) ->
  take_actions [(a, args)] ns = inr ns' ->
  ns !! "save_model" = Some (PyBool b) ->
  ns' !! "save_model" = Some (PyBool (b || is_store_true a))
  /\ (forall k : string, is_Some (ns !! k) -> is_Some (ns' !! k)).
Proof.
  intros Hin Ht Hb. cbn in Ht.
  destruct (take_action a args ns) as [|ns1] eqn:Ha; [discriminate|].
  injection Ht as <-.
  apply take_action_inr in Ha as (Hk & v & -> & Hv).
  split.
  - unfold is_store_true. destruct (kind a) eqn:Ek; [| |congruence].
    + rewrite lookup_insert_ne by (apply (table_store os a Hin Ek)).
      rewrite orb_false_r. exact Hb.
    + destruct (table_store_true os a Hin Ek) as [_ ->].
      rewrite lookup_insert_eq, Hv, orb_true_r; reflexivity.
  - intros k Hs. rewrite lookup_insert_is_Some.
    destruct (decide (dest a = k)); auto.
Qed.

(** **** The explicit argument of an option *)

Lemma explicit_chain_inr (parser : ArgumentParser_t) (e : string) :
  forall (a : Action) (os : string) (acc tuples : list (Action * list string))
         (pending : option Action),
    explicit_chain parser a os e acc = inr (tuples, pending) ->
    (takes_one_argument a = true /\ tuples = acc ++ [(a, [e])]
     /\ pending = None)
    \/ (takes_one_argument a = false /\ second_char_is_prefix os = false
        /\ exists rest, tuples = acc ++ (a, []) :: rest).
Proof.
  induction e as [|c tail IH]; intros a os acc tuples pending; cbn.
  - destruct (takes_one_argument a); [|discriminate].
    intros [= <- <-]. left. auto.
  - destruct (takes_one_argument a).
    { intros [= <- <-]. left. auto. }
    destruct (second_char_is_prefix os); [discriminate|]. cbn.
    destruct (lookup_option parser _) as [a'|]; [|discriminate].
    destruct tail as [|d tail'].
    + intros [= <- <-]. right. split; [|split]; auto. exists []. reflexivity.
    + intros Hc. right. split; [|split]; auto.
      apply IH in Hc as [(_ & -> & _) | (_ & _ & rest & ->)];
        rewrite <- app_assoc; eexists; reflexivity.
Qed.


(** **** The second loop of the parse *)

#[local] Arguments the_parser : simpl never.

Lemma consume_args_save_model (n : nat) :
  forall (cl : list (string * arg_class)) (ns : Namespace) (ex : list string)
         (ns' : Namespace) (ex' : list string) (b : bool),
    (length cl <= n)%nat ->
    Forall known cl ->
    consume_args the_parser cl ns ex = inr (ns', ex') ->
    ns !! "save_model" = Some (PyBool b) ->
    ns' !! "save_model"
    = Some (PyBool (b || existsb (fun sc => is_flag_class (snd sc)) cl))
    /\ (forall k : string, is_Some (ns !! k) -> is_Some (ns' !! k))
    /\ (ex' = [] -> ex = [] /\ Forall (fun sc => snd sc <> ClsDash) cl).
Proof.
  induction n as [|n IH]; intros cl ns ex ns' ex' b Hlen Hknown Hc Hb.
  { destruct cl; [|cbn in Hlen; lia]. cbn in Hc. injection Hc as Hn He. subst ns' ex'.
    cbn. rewrite orb_false_r. auto. }
  destruct cl as [|[s c] rest].
  { cbn in Hc. injection Hc as Hn He. subst ns' ex'. cbn. rewrite orb_false_r. auto. }
  cbn in Hlen. apply Forall_cons in Hknown as [Hk Hknown].
  assert (Hextra :
    consume_args the_parser rest ns (ex ++ [s]) = inr (ns', ex') ->
    is_flag_class c = false ->
    ns' !! "save_model"
    = Some (PyBool (b || existsb (fun sc => is_flag_class (snd sc))
                                 ((s, c) :: rest)))
    /\ (forall k : string, is_Some (ns !! k) -> is_Some (ns' !! k))
    /\ (ex' = [] -> ex = [] /\
        Forall (fun sc => snd sc <> ClsDash) ((s, c) :: rest))).
  { intros Hc' Hf.
    apply (IH _ _ _ _ _ b) in Hc' as (H1 & H2 & H3); [|lia|assumption..].
    cbn. rewrite Hf. cbn. split; [exact H1|]. split; [exact H2|].
    intros He. apply H3 in He as [He _]. destruct ex; discriminate. }
  destruct c as [| |[[[a|] os] e]]; cbn in Hc; try (apply Hextra; auto; fail).
  unfold known in Hk. cbn [snd] in Hk.
  destruct e as [e|].
  - (* --option=explicit *)
    destruct (explicit_chain the_parser a os e []) as [|[tuples pending]] eqn:He;
      [cbn in Hc; discriminate|].
    apply explicit_chain_inr in He
      as [(Ht & -> & ->) | (Ht & Hs & tl & ->)].
    + cbn in Hc.
      destruct (take_action a [e] ns) as [|ns1] eqn:Ha;
        [cbn in Hc; discriminate|].
      destruct (take_one_action os a [e] ns ns1 b Hk) as [H1 H2];
        [cbn; rewrite Ha; reflexivity|assumption|].
      apply (IH _ _ _ _ _ (b || is_store_true a)) in Hc
        as (H3 & H4 & H5); [|lia|assumption..].
      assert (is_store_true a = false) as Hst.
      { unfold is_store_true, takes_one_argument in *.
        destruct (kind a); congruence. }
      rewrite Hst, orb_false_r in H3. cbn. split; [exact H3|].
      split; [auto|]. intros Hx. apply H5 in Hx as [-> Hx]. split; [auto|].
      constructor; [discriminate|assumption].
    + (* a flag with a single dash is [-h], which exits *)
      exfalso. pose proof (table_short_flag os a Hk Ht Hs) as Hh.
      assert (Hno : forall l ns1,
                 take_actions ((a, []) :: l) ns = inr ns1 -> False).
      { intros l ns1 Ha. apply take_actions_head in Ha. congruence. }
      cbv beta iota in Hc. cbn [app] in Hc.
      destruct pending as [a'|]; [destruct (takes_one_argument a')|].
      * destruct rest as [|[v [| |]] rest']; try discriminate.
        match type of Hc with
        | context [take_actions ?l ns] =>
            destruct (take_actions l ns) eqn:Ha; [discriminate|eauto]
        end.
      * match type of Hc with
        | context [take_actions ?l ns] =>
            destruct (take_actions l ns) eqn:Ha; [discriminate|eauto]
        end.
      * match type of Hc with
        | context [take_actions ?l ns] =>
            destruct (take_actions l ns) eqn:Ha; [discriminate|eauto]
        end.
  - (* --option, with its argument after it if it takes one *)
    destruct (takes_one_argument a) eqn:Ht.
    + destruct rest as [|[v [| |]] rest']; try discriminate.
      cbn [app] in Hc.
      destruct (take_actions [(a, [v])] ns) as [|ns1] eqn:Ha; [cbn in Hc; discriminate|].
      destruct (take_one_action os a [v] ns ns1 b Hk Ha Hb) as [H1 H2].
      apply Forall_cons in Hknown as [_ Hknown]. cbn in Hlen.
      apply (IH _ _ _ _ _ (b || is_store_true a)) in Hc
        as (H3 & H4 & H5); [|lia|assumption..].
      cbn. rewrite <- orb_assoc in H3. split; [exact H3|].
      split; [auto|]. intros Hx. apply H5 in Hx as [-> Hx]. split; [auto|].
      repeat constructor; try discriminate. assumption.
    + cbn [app] in Hc.
      destruct (take_actions [(a, [])] ns) as [|ns1] eqn:Ha; [cbn in Hc; discriminate|].
      destruct (take_one_action os a [] ns ns1 b Hk Ha Hb) as [H1 H2].
      apply (IH _ _ _ _ _ (b || is_store_true a)) in Hc
        as (H3 & H4 & H5); [|lia|assumption..].
      cbn. rewrite <- orb_assoc in H3. split; [exact H3|].
      split; [auto|]. intros Hx. apply H5 in Hx as [-> Hx]. split; [auto|].
      constructor; [discriminate|assumption].
Qed.


(** **** The first loop of the parse *)

(** An argument string selects the [store_true] action exactly when it is
    [--save-model] or an abbreviation of it. *)
Lemma parse_optional_save_model (arg : string) (t : option option_tuple) :
  parse_optional the_parser arg = inr t ->
  is_flag_class (match t with None => ClsA | Some t => ClsO t end)
  = is_save_model_flag arg.
Proof.
  intros Hp. destruct (String.prefix arg "--save-model") eqn:Hpre.
  - apply prefix_in_prefixes in Hpre. cbn in Hpre.
    repeat (destruct Hpre as [<- | Hpre];
            [vm_compute in Hp; try discriminate; injection Hp as <-;
             reflexivity|]).
    destruct Hpre.
  - unfold is_save_model_flag. rewrite Hpre, andb_false_r.
    destruct t as [[[[a|] os] [e|]]|]; try reflexivity.
    cbn. unfold is_store_true. destruct (kind a) eqn:Hk; try reflexivity.
    apply parse_optional_In in Hp as [Hin Hpre'].
    apply table_store_true in Hin as [-> _]; [|exact Hk].
    rewrite Hpre' in Hpre by reflexivity. discriminate.
Qed.

Lemma classify_known (argv : list string) :
  forall cl, classify the_parser argv = inr cl -> Forall known cl.
Proof.
  induction argv as [|s argv IH]; intros cl; cbn.
  - intros [= <-]. constructor.
  - destruct (String.eqb s "--").
    + intros [= <-]. constructor; [exact I|].
      unfold after_dashes. apply Forall_map, Forall_forall. intros; exact I.
    + destruct (parse_optional the_parser s) as [|t] eqn:Hp; [discriminate|].
      destruct (classify the_parser argv) as [|cl']; [discriminate|].
      intros [= <-]. constructor; [|apply IH; reflexivity].
      unfold known. cbn [snd].
      destruct t as [[[[a|] os] e]|]; try exact I.
      apply parse_optional_In in Hp. tauto.
Qed.

Lemma classify_save_model (argv : list string) :
  forall cl,
    classify the_parser argv = inr cl ->
    Forall (fun sc => snd sc <> ClsDash) cl ->
    existsb (fun sc => is_flag_class (snd sc)) cl = save_model_passed argv.
Proof.
  induction argv as [|s argv IH]; intros cl; cbn.
  - intros [= <-] _. reflexivity.
  - destruct (String.eqb s "--").
    + intros [= <-] Hd. apply Forall_cons in Hd as [Hd _]. cbn in Hd.
      congruence.
    + destruct (parse_optional the_parser s) as [|t] eqn:Hp; [discriminate|].
      destruct (classify the_parser argv) as [|cl']; [discriminate|].
      intros [= <-] Hd. apply Forall_cons in Hd as [_ Hd]. cbn.
      rewrite (parse_optional_save_model s t Hp), (IH cl'); auto.
Qed.

(** **** The outcome of [get_args] *)

(** When the arguments parse, every attribute of the defaults is set, and
    [save_model] tells whether the flag was passed. *)
Lemma get_args_inr (argv : list string) (args : Namespace) :
  get_args argv = inr args ->
  args !! "save_model" = Some (PyBool (save_model_passed argv))
  /\ (forall k : string, is_Some (defaults !! k) -> is_Some (args !! k)).
Proof.
  unfold get_args, parse_args.
  destruct (classify the_parser argv) as [|cl] eqn:Hcl; [discriminate|].
  destruct (consume_args the_parser cl (add_defaults the_parser) [])
    as [|[ns ex]] eqn:Hc; [discriminate|].
  destruct ex; [|discriminate]. intros [= <-].
  apply (consume_args_save_model (length cl) _ _ _ _ _ false) in Hc
    as (H1 & H2 & H3);
    [|lia|apply (classify_known argv), Hcl|reflexivity].
  destruct H3 as [_ Hd]; [reflexivity|].
  rewrite (classify_save_model argv cl Hcl Hd) in H1.
  split; [exact H1|]. intros k. apply H2.
Qed.

(** When they do not, argparse has exited: with status 0 after [--help],
    with status 2 after an error. *)
Lemma get_args_inl (argv : list string) (e : exn) :
  get_args argv = inl e -> e = SystemExit 0 \/ e = SystemExit 2.
Proof.
  unfold get_args, parse_args.
  match goal with
  | |- match ?x with _ => _ end = _ -> _ => destruct x as [[|]|]
  end; intros [= <-]; cbn; auto.
Qed.

End ParserFacts.

(* ===================================================================== *)
(** ** Properties of main *)

Section MainProperties.
Context `{Tensors} `{Builtins}.

#[local] Set Warnings "-inexact-float".

(** A run of [main] on parsed arguments makes the calls of [script]. *)
Lemma main_with_script (w : World) (args : Namespace) (r : read_args) :
  has_args args r -> main_with w args [] = (inr tt, script w r).
Proof.
  intros (Hseed & Hbs & Htbs & Hlr & Hg & Hlfs & Hp & He & Hsm).
  unfold main_with, script, getattr, new_MyUnit, selected_device.
  rewrite Hseed, Hbs, Htbs, Hlr, Hg, Hlfs, Hp, He, Hsm.
  unfold the_unit, the_state, the_train_dataloader, the_eval_dataloader,
    the_kwargs, selected_device.
  cbv [bind perform ret].
  destruct (String.eqb (type (init_from_env_result w)) "mps");
    destruct (truthy (a_save_model r)); reflexivity.
Qed.

(** Parsed arguments have every attribute that [main] reads. *)
Lemma get_args_has_args (argv : list string) (args : Namespace) :
  get_args argv = inr args ->
  exists r, has_args args r
            /\ a_save_model r = PyBool (save_model_passed argv).
Proof.
  intros Hg. apply get_args_inr in Hg as [Hsm Hkeys].
  assert (Hk : forall k v, defaults !! k = Some v -> is_Some (args !! k))
    by (intros k v Hd; apply Hkeys; eauto).
  destruct (Hk "seed" _ eq_refl) as [v1 H1].
  destruct (Hk "batch_size" _ eq_refl) as [v2 H2].
  destruct (Hk "test_batch_size" _ eq_refl) as [v3 H3].
  destruct (Hk "lr" _ eq_refl) as [v4 H4].
  destruct (Hk "gamma" _ eq_refl) as [v5 H5].
  destruct (Hk "log_frequency_steps" _ eq_refl) as [v6 H6].
  destruct (Hk "precision" _ eq_refl) as [v7 H7].
  destruct (Hk "epochs" _ eq_refl) as [v8 H8].
  exists (mkReadArgs v1 v2 v3 v4 v5 v6 v7 v8
            (PyBool (save_model_passed argv))).
  split; [|reflexivity]. repeat split; assumption.
Qed.

(** A run of [main]: nothing is called when the arguments do not parse, and
    the calls of [script] are made when they do. *)
Lemma run_main_cases (w : World) (argv : list string) :
  (exists e, get_args argv = inl e /\ run_main w argv = (inl e, []))
  \/ (exists args r,
         get_args argv = inr args /\ has_args args r
         /\ a_save_model r = PyBool (save_model_passed argv)
         /\ run_main w argv = (inr tt, script w r)).
Proof.
  unfold run_main, main, bind.
  destruct (get_args argv) as [e|args] eqn:Hg.
  - left. exists e. auto.
  - right. destruct (get_args_has_args argv args Hg) as (r & Hr & Hsm).
    exists args, r. cbn [lift ret].
    rewrite (main_with_script w args r Hr). auto.
Qed.

Lemma units_built_script (w : World) (r : read_args) :
  units_built (script w r) = [the_kwargs w r].
Proof.
  unfold script.
  destruct (String.eqb _ "mps"); destruct (truthy _); reflexivity.
Qed.

Lemma loaders_built_script (w : World) (r : read_args) :
  loaders_built (script w r) = [the_train_dataloader w r; the_eval_dataloader w r].
Proof.
  unfold script.
  destruct (String.eqb _ "mps"); destruct (truthy _); reflexivity.
Qed.

Lemma fits_script (w : World) (r : read_args) :
  fits (script w r) = [(the_state w r, the_unit w r)].
Proof.
  unfold script.
  destruct (String.eqb _ "mps"); destruct (truthy _); reflexivity.
Qed.

Lemma files_saved_script (w : World) (r : read_args) :
  files_saved (script w r)
  = if truthy (a_save_model r) then ["mnist_cnn.pt"] else [].
Proof.
  unfold script.
  destruct (String.eqb _ "mps"); destruct (truthy _); reflexivity.
Qed.

(** [main] does nothing with the attribute [eval_max_steps_per_epoch]. *)
Lemma main_with_ignores_eval_max_steps (w : World) (args : Namespace)
    (v : pyval) (t : list call) :
  main_with w (<["eval_max_steps_per_epoch" := v]> args) t
  = main_with w args t.
Proof.
  unfold main_with, getattr.
  rewrite !lookup_insert_ne by discriminate. reflexivity.
Qed.

(** C7: parsing the empty argument list gives the defaults: seed 1,
    batch_size 64, test_batch_size 1000, epochs 14, lr 1.0, gamma 0.7,
    save_model False, log_frequency_steps 10, precision None and
    eval_max_steps_per_epoch 20, and no other attribute. *)
Theorem get_args_empty_gives_defaults :
  get_args [] = inr defaults
  /\ defaults !! "seed" = Some (PyInt 1)
  /\ defaults !! "batch_size" = Some (PyInt 64)
  /\ defaults !! "test_batch_size" = Some (PyInt 1000)
  /\ defaults !! "epochs" = Some (PyInt 14)
  /\ defaults !! "lr" = Some (PyFloat 1.0)
  /\ defaults !! "gamma" = Some (PyFloat 0.7)
  /\ defaults !! "save_model" = Some (PyBool false)
  /\ defaults !! "log_frequency_steps" = Some (PyInt 10)
  /\ defaults !! "precision" = Some PyNone
  /\ defaults !! "eval_max_steps_per_epoch" = Some (PyInt 20)
  /\ size defaults = 10%nat.
Proof.
  repeat split; reflexivity.
Qed.

(** C5: when the arguments do not parse, the exit that argparse raised
    (status 2 after an error, status 0 after the help) is what [get_args]
    and [main] raise, and [main] has called nothing by then. *)
Theorem argparse_exit_propagates (w : World) (argv : list string) (e : exn) :
  get_args argv = inl e ->
  run_main w argv = (inl e, [])
  /\ (e = SystemExit 2 \/ e = SystemExit 0)
  /\ get_args argv = parse_args the_parser argv.
Proof.
  intros Hg. split; [|split].
  - destruct (run_main_cases w argv)
      as [(e' & Hg' & Hr) | (args & r & Hg' & _)]; congruence.
  - apply get_args_inl in Hg. tauto.
  - reflexivity.
Qed.

(** C3: in a run of [main] in which [fit] was called, [torch.save] writes
    "mnist_cnn.pt", once, when [--save-model] was passed, and nothing is
    saved when it was not. *)
Theorem model_saved_iff_flag (w : World) (argv : list string) :
  fits (snd (run_main w argv)) <> [] ->
  files_saved (snd (run_main w argv))
  = if save_model_passed argv then ["mnist_cnn.pt"] else [].
Proof.
  intros Hfit.
  destruct (run_main_cases w argv)
    as [(e & _ & Hr) | (args & r & _ & _ & Hsm & Hr)];
    rewrite Hr in *; cbn [snd] in *.
  - contradiction.
  - rewrite files_saved_script, Hsm. reflexivity.
Qed.

(** C4, as the code has it: when the arguments parse, [main] builds one
    unit, with strategy "ddp", and the device it is given is the one that
    [init_from_env] returned unless that is an MPS device, in which case it
    is [torch.device("cpu")]. *)
Theorem unit_strategy_and_device (w : World) (argv : list string)
    (args : Namespace) :
  get_args argv = inr args ->
  exists k,
    units_built (snd (run_main w argv)) = [k]
    /\ MyUnit.strategy k = "ddp"
    /\ MyUnit.device_ k
       = if String.eqb (type (init_from_env_result w)) "mps"
         then torch_device "cpu"
         else init_from_env_result w.
Proof.
  intros Hg.
  destruct (run_main_cases w argv)
    as [(e & Hg' & _) | (args' & r & _ & _ & _ & Hr)]; [congruence|].
  exists (the_kwargs w r). rewrite Hr. cbn [snd].
  rewrite units_built_script. auto.
Qed.

(** C9: in every run of [main], a unit that is built has
    gradient_accumulation_steps 4, detect_anomaly True and clip_grad_norm
    1.0, whatever the arguments; and one unit is built when they parse. *)
Theorem unit_training_constants (w : World) (argv : list string) :
  (forall k, In k (units_built (snd (run_main w argv))) ->
             MyUnit.gradient_accumulation_steps k = 4
             /\ MyUnit.detect_anomaly k = true
             /\ MyUnit.clip_grad_norm k = 1.0%float)
  /\ (forall args, get_args argv = inr args ->
                   length (units_built (snd (run_main w argv))) = 1%nat).
Proof.
  destruct (run_main_cases w argv)
    as [(e & Hg & Hr) | (args' & r & Hg & _ & _ & Hr)];
    rewrite Hr; cbn [snd]; [|rewrite units_built_script]; split.
  - intros k [].
  - intros args Ha. congruence.
  - intros k [<- | []]. auto.
  - reflexivity.
Qed.

(** C10: when the arguments parse, [main] builds the training loader and
    the evaluation loader, both with [pin_memory] true exactly when the
    type of the device is "cuda"; that is the same for the device
    [init_from_env] returned and for the one [main] goes on with. *)
Theorem loaders_pin_memory_iff_cuda (w : World) (argv : list string)
    (args : Namespace) :
  get_args argv = inr args ->
  exists train_loader eval_loader,
    loaders_built (snd (run_main w argv)) = [train_loader; eval_loader]
    /\ train (dataset train_loader) = true
    /\ train (dataset eval_loader) = false
    /\ pin_memory train_loader
       = String.eqb (type (init_from_env_result w)) "cuda"
    /\ pin_memory eval_loader
       = String.eqb (type (init_from_env_result w)) "cuda"
    /\ String.eqb (type (selected_device w)) "cuda"
       = String.eqb (type (init_from_env_result w)) "cuda".
Proof.
  intros Hg.
  assert (Hdev : String.eqb (type (selected_device w)) "cuda"
                 = String.eqb (type (init_from_env_result w)) "cuda").
  { unfold selected_device.
    destruct (String.eqb_spec (type (init_from_env_result w)) "mps") as [->|];
      reflexivity. }
  destruct (run_main_cases w argv)
    as [(e & Hg' & _) | (args' & r & _ & _ & _ & Hr)]; [congruence|].
  exists (the_train_dataloader w r), (the_eval_dataloader w r).
  rewrite Hr. cbn [snd]. rewrite loaders_built_script.
  unfold the_train_dataloader, the_eval_dataloader. cbn.
  rewrite Hdev. auto 10.
Qed.

End MainProperties.

(* ===================================================================== *)
(** ** The script on concrete arguments *)

Section Runs.
Import Concrete.

#[local] Set Warnings "-inexact-float".

(** C1: the value given to [--eval_max_steps_per_epoch] is parsed into the
    attribute of that name and goes no further: the run of [main] with the
    flag set to 5 makes the calls, with the arguments, of the run without
    it; neither [init_fit_state] nor the unit receives the value. *)
Theorem eval_max_steps_flag_changes_nothing `{Tensors} (w : World) :
  (exists args,
      get_args ["--eval_max_steps_per_epoch"; "5"] = inr args
      /\ args !! "eval_max_steps_per_epoch" = Some (PyInt 5))
  /\ run_main w ["--eval_max_steps_per_epoch"; "5"] = run_main w [].
Proof.
  assert (Hflag : get_args ["--eval_max_steps_per_epoch"; "5"]
                  = inr (<["eval_max_steps_per_epoch" := PyInt 5]> defaults))
    by reflexivity.
  assert (Hnone : get_args [] = inr defaults) by reflexivity.
  split.
  - eexists. split; [exact Hflag|]. apply lookup_insert_eq.
  - unfold run_main, main, bind. rewrite Hflag, Hnone. cbn [lift ret].
    apply main_with_ignores_eval_max_steps.
Qed.

Lemma argparse_exit_propagates_witness :
  get_args ["--precision"; "fp32"] = inl (SystemExit 2)
  /\ run_main cpu_world ["--precision"; "fp32"] = (inl (SystemExit 2), []).
Proof.
  split; [reflexivity|].
  apply (argparse_exit_propagates cpu_world ["--precision"; "fp32"]
           (SystemExit 2)).
  reflexivity.
Defined.

Lemma model_saved_iff_flag_witness :
  fits (snd (run_main cpu_world ["--save-model"])) <> []
  /\ files_saved (snd (run_main cpu_world ["--save-model"]))
     = ["mnist_cnn.pt"].
Proof.
  split; [vm_compute; discriminate|].
  apply (model_saved_iff_flag cpu_world ["--save-model"]).
  vm_compute. discriminate.
Defined.

(** C4 as stated fails: on a machine where [init_from_env] returns an MPS
    device, the unit is not given that device. *)
Lemma unit_device_differs_on_mps :
  ~ (forall k : MyUnit.AutoUnit,
        In k (units_built (snd (run_main mps_world []))) ->
        MyUnit.device_ k = init_from_env_result mps_world).
Proof.
  intros Hall.
  specialize (Hall (the_kwargs mps_world
                      (mkReadArgs (PyInt 1) (PyInt 64) (PyInt 1000)
                         (PyFloat 1.0) (PyFloat 0.7) (PyInt 10) PyNone
                         (PyInt 14) (PyBool false)))).
  assert (Hk : MyUnit.device_
                 (the_kwargs mps_world
                    (mkReadArgs (PyInt 1) (PyInt 64) (PyInt 1000)
                       (PyFloat 1.0) (PyFloat 0.7) (PyInt 10) PyNone
                       (PyInt 14) (PyBool false)))
               = init_from_env_result mps_world).
  { apply Hall. vm_compute. left. reflexivity. }
  vm_compute in Hk. discriminate Hk.
Qed.

Lemma unit_strategy_and_device_witness :
  get_args [] = inr defaults
  /\ exists k,
      units_built (snd (run_main mps_world [])) = [k]
      /\ MyUnit.strategy k = "ddp"
      /\ MyUnit.device_ k = torch_device "cpu".
Proof.
  split; [reflexivity|].
  apply (unit_strategy_and_device mps_world [] defaults). reflexivity.
Defined.

Lemma unit_training_constants_witness :
  get_args ["--lr"; "0.5"; "--seed"; "7"]
  = inr (<["seed" := PyInt 7]> (<["lr" := PyFloat 0.5]> defaults))
  /\ length (units_built
               (snd (run_main cuda_world ["--lr"; "0.5"; "--seed"; "7"])))
     = 1%nat.
Proof.
  split; [reflexivity|].
  apply (proj2 (unit_training_constants cuda_world
                  ["--lr"; "0.5"; "--seed"; "7"])
           (<["seed" := PyInt 7]> (<["lr" := PyFloat 0.5]> defaults))).
  reflexivity.
Defined.

Lemma loaders_pin_memory_iff_cuda_witness :
  get_args ["--batch-size"; "32"]
  = inr (<["batch_size" := PyInt 32]> defaults)
  /\ exists train_loader eval_loader,
      loaders_built (snd (run_main cuda_world ["--batch-size"; "32"]))
      = [train_loader; eval_loader]
      /\ train (dataset train_loader) = true
      /\ train (dataset eval_loader) = false
      /\ pin_memory train_loader = true
      /\ pin_memory eval_loader = true
      /\ String.eqb (type (selected_device cuda_world)) "cuda" = true.
Proof.
  split; [reflexivity|].
  apply (loaders_pin_memory_iff_cuda cuda_world ["--batch-size"; "32"]
           (<["batch_size" := PyInt 32]> defaults)).
  reflexivity.
Defined.

End Runs.

(* ===================================================================== *)
(** ** Further properties of MyUnit *)

Section MoreUnitProperties.
Context `{Tensors}.

Ltac each_method i :=
  destruct i as [m | st [inp tg] | st [inp tg] l o | st step iv | st
                | st [inp tg]].

Lemma accumulated_after_run (calls : list MyUnit.invocation)
    (h : MyUnit.heap) :
  MyUnit.accumulated (snd (MyUnit.run calls h))
  = accumulated_after calls (MyUnit.accumulated h).
Proof.
  revert h. induction calls as [|i calls IH]; intros h; [reflexivity|].
  rewrite run_cons, IH.
  each_method i; cbn; try destruct (copy_data_to_device _ _); reflexivity.
Qed.

(** X1: The accuracy that [log_metrics] logs covers the batches of the current
    epoch: after any calls of the methods on a new unit, it is computed from
    the (outputs, targets) pairs that [update_metrics] received since the
    last [on_train_epoch_end], and from nothing when there was none. *)
Theorem accuracy_logged_is_of_current_epoch
    (u : MyUnit.MyUnit) (calls : list MyUnit.invocation)
    (state : State) (step : Z) (interval : string) :
  logged "accuracy"
    (MyUnit.effects
       (snd (MyUnit.run (calls ++ [MyUnit.call_log_metrics state step interval])
                        (MyUnit.fresh u))))
  = logged "accuracy"
      (MyUnit.effects (snd (MyUnit.run calls (MyUnit.fresh u))))
    ++ [(Some (accuracy_of (accumulated_after calls [])), step)].
Proof.
  rewrite run_app.
  pose proof (accumulated_after_run calls (MyUnit.fresh u)) as Hacc.
  cbn in Hacc. cbn. rewrite Hacc.
  unfold logged. rewrite <- !app_assoc, omap_app. reflexivity.
Qed.

Lemma invoke_keeps_state (i : MyUnit.invocation) (h : MyUnit.heap) :
  changes_state i = false ->
  MyUnit.self (snd (MyUnit.invoke i h)) = MyUnit.self h
  /\ MyUnit.accumulated (snd (MyUnit.invoke i h)) = MyUnit.accumulated h.
Proof.
  each_method i; cbn; try discriminate;
    try destruct (copy_data_to_device _ _); auto.
Qed.

Lemma invoke_state_only (i : MyUnit.invocation) (h h' : MyUnit.heap) :
  MyUnit.self h = MyUnit.self h' ->
  MyUnit.accumulated h = MyUnit.accumulated h' ->
  MyUnit.self (snd (MyUnit.invoke i h)) = MyUnit.self (snd (MyUnit.invoke i h'))
  /\ MyUnit.accumulated (snd (MyUnit.invoke i h))
     = MyUnit.accumulated (snd (MyUnit.invoke i h')).
Proof.
  intros Hs Ha.
  each_method i; cbn; rewrite ?Hs, ?Ha;
    try destruct (copy_data_to_device _ _); auto.
Qed.

(** X2: [compute_loss], [eval_step], [log_metrics] and
    [configure_optimizers_and_lr_scheduler] leave the unit and the metric as
    they are: dropping their calls from any sequence of calls gives the same
    attributes of the unit and the same accumulated metric at the end. *)
Theorem evaluation_and_logging_keep_state
    (calls : list MyUnit.invocation) (h : MyUnit.heap) :
  MyUnit.self (snd (MyUnit.run calls h))
  = MyUnit.self (snd (MyUnit.run (List.filter changes_state calls) h))
  /\ MyUnit.accumulated (snd (MyUnit.run calls h))
     = MyUnit.accumulated
         (snd (MyUnit.run (List.filter changes_state calls) h)).
Proof.
  enough (Hgen : forall h h',
             MyUnit.self h = MyUnit.self h' ->
             MyUnit.accumulated h = MyUnit.accumulated h' ->
             MyUnit.self (snd (MyUnit.run calls h))
             = MyUnit.self
                 (snd (MyUnit.run (List.filter changes_state calls) h'))
             /\ MyUnit.accumulated (snd (MyUnit.run calls h))
                = MyUnit.accumulated
                    (snd (MyUnit.run (List.filter changes_state calls) h')))
    by (apply Hgen; reflexivity).
  clear h. induction calls as [|i calls IH]; intros h h' Hs Ha.
  - cbn. auto.
  - cbn [List.filter]. rewrite run_cons.
    destruct (changes_state i) eqn:Hc.
    + rewrite run_cons.
      destruct (invoke_state_only i h h' Hs Ha) as [Hs' Ha'].
      apply IH; assumption.
    + destruct (invoke_keeps_state i h Hc) as [Hs' Ha'].
      apply IH; congruence.
Qed.

Lemma super_after_invoke (i : MyUnit.invocation) (h : MyUnit.heap) :
  MyUnit.super (MyUnit.self (snd (MyUnit.invoke i h)))
  = MyUnit.super (MyUnit.self h).
Proof.
  each_method i; cbn; try destruct (copy_data_to_device _ _); reflexivity.
Qed.

Lemma logged_app (name : string) (es es' : list MyUnit.effect) :
  logged name (es ++ es') = logged name es ++ logged name es'.
Proof. apply omap_app. Qed.

Lemma invoke_eval_entries (i : MyUnit.invocation) (h : MyUnit.heap) :
  logged "evaluation loss" (MyUnit.effects (snd (MyUnit.invoke i h)))
  = logged "evaluation loss" (MyUnit.effects h)
    ++ eval_entries (MyUnit.super (MyUnit.self h)) [i].
Proof.
  each_method i; cbn -[logged];
    rewrite ?logged_app, ?app_nil_r; try reflexivity.
  unfold eval_entries, eval_loss. cbn -[logged].
  destruct (copy_data_to_device _ _) as [inp' tg']. cbn -[logged].
  rewrite logged_app. reflexivity.
Qed.

(** X3: What is logged under "evaluation loss" comes from [eval_step] alone: in
    any sequence of calls on a unit, the entries are, in order, one per
    [eval_step] call, with the loss of the batch copied to the device of the
    unit (computed without [squeeze]) and the number of evaluation steps
    completed as the step. *)
Theorem evaluation_loss_entries
    (calls : list MyUnit.invocation) (h : MyUnit.heap) :
  logged "evaluation loss" (MyUnit.effects (snd (MyUnit.run calls h)))
  = logged "evaluation loss" (MyUnit.effects h)
    ++ eval_entries (MyUnit.super (MyUnit.self h)) calls.
Proof.
  revert h. induction calls as [|i calls IH]; intros h.
  - cbn -[logged]. rewrite app_nil_r. reflexivity.
  - rewrite run_cons, IH, invoke_eval_entries, super_after_invoke.
    rewrite <- app_assoc. f_equal.
    unfold eval_entries. rewrite <- omap_app. reflexivity.
Qed.

End MoreUnitProperties.

(* ===================================================================== *)
(** ** Further properties of main *)

Section MoreMainProperties.
Context `{Tensors} `{Builtins}.

#[local] Set Warnings "-inexact-float".


(** X6: Where the parsed values go: [--seed] to [seed], which is the first
    call of the run; [--batch-size] to the training loader and
    [--test-batch-size] to the evaluation loader; [--epochs] to
    [max_epochs] of the state given to [fit], which holds these two
    loaders. *)
Theorem parsed_values_reach_the_run (w : World) (argv : list string)
    (args : Namespace) :
  get_args argv = inr args ->
  exists args_seed rest train_loader eval_loader st u,
    snd (run_main w argv) = do_seed args_seed :: rest
    /\ args !! "seed" = Some args_seed
    /\ loaders_built (snd (run_main w argv)) = [train_loader; eval_loader]
    /\ args !! "batch_size" = Some (batch_size train_loader)
    /\ args !! "test_batch_size" = Some (batch_size eval_loader)
    /\ fits (snd (run_main w argv)) = [(st, u)]
    /\ train_dataloader st = train_loader
    /\ eval_dataloader st = eval_loader
    /\ args !! "epochs" = Some (max_epochs st).
Proof.
  intros Hg.
  destruct (run_main_cases w argv)
    as [(e & Hg' & _) | (args' & r & Hg' & Hr & _ & Hrun)]; [congruence|].
  assert (args' = args) as -> by congruence.
  destruct Hr as (Hseed & Hbs & Htbs & _ & _ & _ & _ & He & _).
  rewrite Hrun. cbn [snd].
  exists (a_seed r). eexists.
  exists (the_train_dataloader w r), (the_eval_dataloader w r),
    (the_state w r), (the_unit w r).
  rewrite loaders_built_script, fits_script.
  repeat split; assumption.
Qed.

(** X7: [--lr] and [--gamma] reach the optimizer: the unit given to [fit]
    holds the parsed values, and its
    [configure_optimizers_and_lr_scheduler] returns, for any module, an
    Adadelta over that module with [lr] the parsed [--lr] and a StepLR on
    that optimizer with step size 1 and [gamma] the parsed [--gamma];
    [--log-frequency-steps] and [--precision] are handed to [AutoUnit]. *)
Theorem parsed_values_reach_the_unit (w : World) (argv : list string)
    (args : Namespace) :
  get_args argv = inr args ->
  exists st u args_lr args_gamma,
    fits (snd (run_main w argv)) = [(st, u)]
    /\ units_built (snd (run_main w argv)) = [MyUnit.super u]
    /\ args !! "lr" = Some args_lr
    /\ args !! "gamma" = Some args_gamma
    /\ args !! "log_frequency_steps"
       = Some (MyUnit.log_frequency_steps (MyUnit.super u))
    /\ args !! "precision" = Some (MyUnit.precision (MyUnit.super u))
    /\ forall (module : Net.Net) (h : MyUnit.heap),
         MyUnit.self h = u ->
         MyUnit.configure_optimizers_and_lr_scheduler module h
         = ((mkAdadelta module args_lr,
             mkStepLR (mkAdadelta module args_lr) 1 args_gamma), h).
Proof.
  intros Hg.
  destruct (run_main_cases w argv)
    as [(e & Hg' & _) | (args' & r & Hg' & Hr & _ & Hrun)]; [congruence|].
  assert (args' = args) as -> by congruence.
  destruct Hr as (_ & _ & _ & Hlr & Hgm & Hlfs & Hp & _ & _).
  rewrite Hrun. cbn [snd].
  exists (the_state w r), (the_unit w r), (a_lr r), (a_gamma r).
  rewrite fits_script, units_built_script.
  repeat split; try assumption.
  intros module h Hs.
  unfold MyUnit.configure_optimizers_and_lr_scheduler, MyUnit.bind,
    MyUnit.get_self, MyUnit.ret.
  rewrite Hs. reflexivity.
Qed.

(** X8: Nothing is saved before training: in a run whose arguments parsed, no
    [state_dict] is taken and no file is written before [fit] has
    returned, and [fit] is called once. *)
Theorem saving_follows_fit (w : World) (argv : list string)
    (args : Namespace) :
  get_args argv = inr args ->
  exists before st u after,
    snd (run_main w argv) = before ++ do_fit st u :: after
    /\ state_dicts_taken before = []
    /\ files_saved before = []
    /\ fits before = [] /\ fits after = [].
Proof.
  intros Hg.
  destruct (run_main_cases w argv)
    as [(e & Hg' & _) | (args' & r & _ & _ & _ & Hrun)]; [congruence|].
  rewrite Hrun. cbn [snd].
  exists (firstn (if String.eqb (type (init_from_env_result w)) "mps"
                  then 14 else 13) (script w r)),
    (the_state w r), (the_unit w r),
    (skipn (if String.eqb (type (init_from_env_result w)) "mps"
            then 15 else 14) (script w r)).
  unfold script.
  destruct (String.eqb _ "mps"); destruct (truthy _);
    repeat split; reflexivity.
Qed.

(** X9: [torch.device] is called only to replace an MPS device: once, with
    "cpu", when [init_from_env] returned a device of type "mps", and not at
    all otherwise; the metric is created on the device the unit is given,
    and the logger on the directory that [mkdtemp] made. *)
Theorem device_replaced_only_for_mps (w : World) (argv : list string)
    (args : Namespace) :
  get_args argv = inr args ->
  devices_made (snd (run_main w argv))
  = (if String.eqb (type (init_from_env_result w)) "mps"
     then ["cpu"] else [])
  /\ exists st u,
      fits (snd (run_main w argv)) = [(st, u)]
      /\ metric_device (MyUnit.train_accuracy u)
         = MyUnit.device_ (MyUnit.super u)
      /\ path (MyUnit.tb_logger u) = mkdtemp_result w.
Proof.
  intros Hg.
  destruct (run_main_cases w argv)
    as [(e & Hg' & _) | (args' & r & _ & _ & _ & Hrun)]; [congruence|].
  rewrite Hrun. cbn [snd]. split.
  - unfold script.
    destruct (String.eqb _ "mps"); destruct (truthy _); reflexivity.
  - exists (the_state w r), (the_unit w r).
    rewrite fits_script. auto.
Qed.

End MoreMainProperties.

(* ===================================================================== *)
(** ** Further properties of get_args *)

Section MoreParserFacts.
Context `{Builtins}.

#[local] Arguments the_parser : simpl never.

Lemma add_defaults_the_parser : add_defaults the_parser = defaults.
Proof. reflexivity. Qed.

Lemma parse_optional_bare (parser : ArgumentParser_t) (s : string) :
  Str.starts_with_dash s = false -> parse_optional parser s = inr None.
Proof.
  destruct s as [|c r]; [reflexivity|]. cbn. intros ->. reflexivity.
Qed.

Lemma bare_is_not_dashes (s : string) :
  Str.starts_with_dash s = false -> String.eqb s "--" = false.
Proof.
  destruct s as [|c r]; [reflexivity|]. cbn. unfold Str.minus.
  intros ->. reflexivity.
Qed.

(** One step of the second loop: the string goes to the extras, or its
    action is taken and the loop goes on after it, or after its argument. *)
Lemma consume_args_step (s : string) (c : arg_class)
    (rest : list (string * arg_class)) (ns : Namespace) (ex : list string)
    (ns' : Namespace) (ex' : list string) :
  known (s, c) ->
  consume_args the_parser ((s, c) :: rest) ns ex = inr (ns', ex') ->
  consume_args the_parser rest ns (ex ++ [s]) = inr (ns', ex')
  \/ exists a os e args ns1 rest',
      c = ClsO (Some a, os, e)
      /\ In (os, a) (option_string_actions the_parser)
      /\ take_actions [(a, args)] ns = inr ns1
      /\ consume_args the_parser rest' ns1 ex = inr (ns', ex')
      /\ (rest' = rest \/ exists v, rest = (v, ClsA) :: rest').
Proof.
  intros Hk Hc.
  destruct c as [| |[[[a|] os] e]]; cbn in Hc; auto.
  unfold known in Hk. cbn [snd] in Hk. right.
  destruct e as [e|].
  - destruct (explicit_chain the_parser a os e []) as [|[tuples pending]] eqn:He;
      [cbn in Hc; discriminate|].
    apply explicit_chain_inr in He
      as [(Ht & -> & ->) | (Ht & Hs & tl & ->)].
    + cbn in Hc.
      destruct (take_action a [e] ns) as [|ns1] eqn:Ha;
        [cbn in Hc; discriminate|].
      exists a, os, (Some e), [e], ns1, rest.
      cbn. rewrite Ha. auto 10.
    + exfalso. pose proof (table_short_flag os a Hk Ht Hs) as Hh.
      assert (Hno : forall l ns1,
                 take_actions ((a, []) :: l) ns = inr ns1 -> False).
      { intros l ns1 Ha. apply take_actions_head in Ha. congruence. }
      cbv beta iota in Hc. cbn [app] in Hc.
      destruct pending as [a'|]; [destruct (takes_one_argument a')|].
      * destruct rest as [|[v [| |]] rest']; try discriminate.
        match type of Hc with
        | context [take_actions ?l ns] =>
            destruct (take_actions l ns) eqn:Ha; [discriminate|eauto]
        end.
      * match type of Hc with
        | context [take_actions ?l ns] =>
            destruct (take_actions l ns) eqn:Ha; [discriminate|eauto]
        end.
      * match type of Hc with
        | context [take_actions ?l ns] =>
            destruct (take_actions l ns) eqn:Ha; [discriminate|eauto]
        end.
  - destruct (takes_one_argument a) eqn:Ht.
    + destruct rest as [|[v [| |]] rest']; try discriminate.
      cbn [app] in Hc.
      destruct (take_actions [(a, [v])] ns) as [|ns1] eqn:Ha; [discriminate|].
      exists a, os, None, [v], ns1, rest'. eauto 10.
    + cbn [app] in Hc.
      destruct (take_actions [(a, [])] ns) as [|ns1] eqn:Ha; [discriminate|].
      exists a, os, None, [], ns1, rest. auto 10.
Qed.

(** What every action of the table keeps, the whole parse keeps. *)
Lemma consume_args_invariant (P : Namespace -> Prop) :
  (forall os a args ns ns1,
      In (os, a) (option_string_actions the_parser) ->
      take_actions [(a, args)] ns = inr ns1 -> P ns -> P ns1) ->
  forall (n : nat) (cl : list (string * arg_class)) (ns : Namespace)
         (ex : list string) (ns' : Namespace) (ex' : list string),
    (length cl <= n)%nat ->
    Forall known cl ->
    consume_args the_parser cl ns ex = inr (ns', ex') ->
    P ns -> P ns'.
Proof.
  intros Hstep. induction n as [|n IH]; intros cl ns ex ns' ex' Hlen Hk Hc HP.
  { destruct cl; [|cbn in Hlen; lia]. cbn in Hc. congruence. }
  destruct cl as [|[s c] rest]; [cbn in Hc; congruence|].
  cbn in Hlen. apply Forall_cons in Hk as [Hk Hrest].
  apply consume_args_step in Hc
    as [Hc | (a & os & e & args & ns1 & rest' & -> & Hin & Ha & Hc & Hr)];
    [ | |exact Hk].
  - apply (IH rest ns (ex ++ [s]) ns' ex'); auto. lia.
  - apply (IH rest' ns1 ex ns' ex'); eauto.
    + destruct Hr as [-> | [v ->]]; cbn in *; lia.
    + destruct Hr as [-> | [v ->]]; [assumption|].
      apply Forall_cons in Hrest. tauto.
Qed.

(** The same for [get_args], from the defaults. *)
Lemma get_args_invariant (P : Namespace -> Prop) :
  (forall os a args ns ns1,
      In (os, a) (option_string_actions the_parser) ->
      take_actions [(a, args)] ns = inr ns1 -> P ns -> P ns1) ->
  P defaults ->
  forall argv args, get_args argv = inr args -> P args.
Proof.
  intros Hstep Hd argv args. unfold get_args, parse_args.
  destruct (classify the_parser argv) as [|cl] eqn:Hcl; [discriminate|].
  destruct (consume_args the_parser cl (add_defaults the_parser) [])
    as [|[ns ex]] eqn:Hc; [discriminate|].
  destruct ex; [|discriminate]. intros [= <-].
  apply (consume_args_invariant P Hstep (length cl) cl _ _ _ _
           (Nat.le_refl _) (classify_known argv cl Hcl) Hc).
  exact Hd.
Qed.

Lemma table_dest_ok (os : string) (a : Action) :
  In (os, a) (option_string_actions the_parser) ->
  entry_dest_ok (os, a) = true.
Proof.
  intros Hin.
  assert (Hall : forallb entry_dest_ok (option_string_actions the_parser)
                 = true) by reflexivity.
  rewrite forallb_forall in Hall. apply Hall, Hin.
Qed.

(** X10: The attributes of parsed arguments are the ten of the defaults: none
    is missing and none is added, whatever the argument vector. *)
Theorem get_args_attributes (argv : list string) (args : Namespace) :
  get_args argv = inr args ->
  dom args = dom defaults /\ size args = 10%nat.
Proof.
  intros Hg.
  assert (Hdom : dom args = dom defaults).
  { apply set_eq. intros k. rewrite !elem_of_dom. split.
    - revert k. revert argv args Hg.
      apply (get_args_invariant
               (fun ns => forall k, is_Some (ns !! k) -> is_Some (defaults !! k)));
        [|auto].
      intros os a args ns ns1 Hin Ht HP k.
      cbn in Ht. destruct (take_action a args ns) as [|ns2] eqn:Ha;
        [discriminate|]. injection Ht as <-.
      apply take_action_inr in Ha as (Hk & v & -> & _).
      rewrite lookup_insert_is_Some. intros [<- | [_ Hs]]; [|auto].
      apply table_dest_ok in Hin. unfold entry_dest_ok in Hin. cbn [snd] in Hin.
      destruct (kind a); [| |congruence];
        destruct (defaults !! dest a); try discriminate; eauto.
    - apply get_args_inr in Hg as [_ Hkeys]. apply Hkeys. }
  split; [exact Hdom|].
  rewrite <- size_dom, Hdom. reflexivity.
Qed.

(** X11: [precision], when it is a string, is one of the two choices, whatever
    the argument vector. *)
Theorem precision_is_a_choice (argv : list string) (args : Namespace)
    (s : string) :
  get_args argv = inr args ->
  args !! "precision" = Some (PyStr s) ->
  s = "fp16" \/ s = "bf16".
Proof.
  intros Hg. revert s. revert argv args Hg.
  apply (get_args_invariant
           (fun ns => forall s, ns !! "precision" = Some (PyStr s) ->
                                s = "fp16" \/ s = "bf16"));
    [|intros s; discriminate].
  intros os a args ns ns1 Hin Ht HP s.
  cbn in Ht. unfold take_action in Ht.
  destruct (get_values a args) as [|v] eqn:Hv; [discriminate|].
  destruct (call_action a ns v) as [|ns2] eqn:Hcall; [discriminate|].
  injection Ht as <-.
  apply table_dest_ok in Hin. unfold entry_dest_ok in Hin. cbn [snd] in Hin.
  unfold call_action, setattr in Hcall.
  destruct (String.eqb_spec (dest a) "precision") as [Hd|Hd].
  - destruct (kind a) eqn:Hkind; [| |discriminate].
    + injection Hcall as <-. rewrite Hd, lookup_insert_eq. intros [= ->].
      apply andb_prop in Hin as [_ Hin].
      destruct (choices a) as [[|x [|y [|]]]|] eqn:Hch; try discriminate.
      apply andb_prop in Hin as [Hx Hy].
      apply String.eqb_eq in Hx, Hy. subst x y.
      unfold get_values in Hv.
      destruct (remove_dashes args) as [|arg [|]];
        unfold takes_one_argument in Hv; try rewrite Hkind in Hv.
      * cbn in Hv. discriminate.
      * destruct (get_value a arg) as [|v'] eqn:Hgv; [discriminate|].
        unfold check_value in Hv. rewrite Hch in Hv.
        destruct (in_choices v' ["fp16"; "bf16"]) eqn:Hin'; [|discriminate].
        injection Hv as ->. cbn in Hin'.
        destruct (String.eqb_spec s "fp16"); [auto|].
        destruct (String.eqb_spec s "bf16"); [auto|discriminate].
      * destruct (get_value_list a _) as [|vs]; [discriminate|].
        destruct (check_value_list a vs); discriminate.
    + injection Hcall as <-. rewrite Hd, lookup_insert_eq. discriminate.
  - destruct (kind a); [| |discriminate]; injection Hcall as <-;
      rewrite lookup_insert_ne by congruence; apply HP.
Qed.


(** **** One flag and its value *)

Lemma parse_optional_exact (parser : ArgumentParser_t) (arg : string)
    (a : Action) :
  Str.starts_with_dash arg = true ->
  lookup_option parser arg = Some a ->
  parse_optional parser arg = inr (Some (Some a, arg, None)).
Proof.
  destruct arg as [|c r]; [discriminate|]. cbn [Str.starts_with_dash].
  intros Hd Hl. unfold parse_optional. rewrite Hd, Hl. reflexivity.
Qed.

(** The value of a single argument string that is not ["--"], for a
    [store] action without choices. *)
Lemma get_values_single (a : Action) (s : string) :
  kind a = Store -> choices a = None -> String.eqb s "--" = false ->
  get_values a [s]
  = match convert (type_ a) s with
    | Some v => inr v
    | None => inl (UsageError (InvalidValue a s))
    end.
Proof.
  intros Hk Hc Hs. unfold get_values, takes_one_argument, check_value.
  cbn [remove_dashes]. rewrite Hs, Hk, Hc. unfold get_value, convert.
  destruct (type_ a); cbn;
    try destruct (int_of_str s); try destruct (float_of_str s); reflexivity.
Qed.

(** [--flag value] for a [store] flag of the script. *)
Lemma get_args_flag_value (flag : string) (a : Action) (s : string) :
  Str.starts_with_dash flag = true ->
  String.eqb flag "--" = false ->
  lookup_option the_parser flag = Some a ->
  kind a = Store ->
  Str.starts_with_dash s = false ->
  get_args [flag; s]
  = match get_values a [s] with
    | inl e => inl (exit_exn e)
    | inr v => inr (<[dest a := v]> defaults)
    end.
Proof.
  intros Hd Hne Hl Hk Hs. unfold get_args, parse_args.
  cbn [classify]. rewrite Hne, (parse_optional_exact _ _ _ Hd Hl).
  rewrite (bare_is_not_dashes s Hs), (parse_optional_bare _ s Hs).
  cbn [consume_args]. unfold takes_one_argument at 1. rewrite Hk.
  cbn [app take_actions]. unfold take_action.
  destruct (get_values a [s]) as [e|v]; [reflexivity|].
  unfold call_action, setattr. rewrite Hk, add_defaults_the_parser.
  reflexivity.
Qed.

(** [--flag=value] for a [store] flag of the script. *)
Lemma get_args_flag_equals_value (flag : string) (a : Action) (s : string) :
  String.eqb (flag ++ "=" ++ s) "--" = false ->
  parse_optional the_parser (flag ++ "=" ++ s)
  = inr (Some (Some a, flag, Some s)) ->
  kind a = Store ->
  get_args [(flag ++ "=" ++ s)%string]
  = match get_values a [s] with
    | inl e => inl (exit_exn e)
    | inr v => inr (<[dest a := v]> defaults)
    end.
Proof.
  intros Hne Hp Hk. unfold get_args, parse_args.
  cbn [classify]. rewrite Hne, Hp.
  cbn [consume_args].
  assert (Hchain : explicit_chain the_parser a flag s [] = inr ([(a, [s])], None)).
  { destruct s; cbn; unfold takes_one_argument; rewrite Hk; reflexivity. }
  rewrite Hchain. cbn [take_actions]. unfold take_action.
  destruct (get_values a [s]) as [e|v]; [reflexivity|].
  unfold call_action, setattr. rewrite Hk, add_defaults_the_parser.
  reflexivity.
Qed.

(** X12: A numeric flag followed by a value sets its attribute to the number
    that [int] or [float] makes of the value, and leaves the other nine at
    their defaults; when the conversion fails, argparse exits with status
    2. *)
Theorem numeric_flag_sets_its_attribute (flag dest_ : string)
    (ty : type_func) (s : string) :
  In (flag, dest_, ty) numeric_flags ->
  Str.starts_with_dash s = false ->
  get_args [flag; s]
  = match convert ty s with
    | Some v => inr (<[dest_ := v]> defaults)
    | None => inl (SystemExit 2)
    end.
Proof.
  intros Hin Hs. cbn in Hin.
  repeat (destruct Hin as [[= <- <- <-] | Hin];
          [ erewrite get_args_flag_value;
            [ | reflexivity | reflexivity | reflexivity | reflexivity | exact Hs];
            rewrite get_values_single
              by (first [reflexivity | apply bare_is_not_dashes, Hs]);
            cbn [type_ dest];
            match goal with
            | |- context [convert ?t s] => destruct (convert t s)
            end; reflexivity
          | ]).
  destruct Hin.
Qed.

(** X13: [--flag=value] parses as [--flag value] does. *)
Theorem flag_equals_value_form (flag dest_ : string) (ty : type_func)
    (s : string) :
  In (flag, dest_, ty) numeric_flags ->
  Str.starts_with_dash s = false ->
  get_args [(flag ++ "=" ++ s)%string] = get_args [flag; s].
Proof.
  intros Hin Hs. cbn in Hin.
  repeat (destruct Hin as [[= <- <- <-] | Hin];
          [ erewrite get_args_flag_value;
            [ | reflexivity | reflexivity | reflexivity | reflexivity | exact Hs];
            erewrite get_args_flag_equals_value;
            [ reflexivity | reflexivity | vm_compute; reflexivity | reflexivity ]
          | ]).
  destruct Hin.
Qed.

(** X14: [--precision value] is accepted for the two choices only. *)
Theorem precision_flag_checks_choices (s : string) :
  Str.starts_with_dash s = false ->
  get_args ["--precision"; s]
  = if String.eqb s "fp16" || String.eqb s "bf16"
    then inr (<["precision" := PyStr s]> defaults)
    else inl (SystemExit 2).
Proof.
  intros Hs.
  erewrite get_args_flag_value;
    [ | reflexivity | reflexivity | reflexivity | reflexivity | exact Hs].
  unfold get_values, takes_one_argument, check_value, get_value, in_choices.
  cbn [remove_dashes kind type_ choices dest existsb].
  rewrite (bare_is_not_dashes s Hs), orb_false_r.
  destruct (String.eqb s "fp16" || String.eqb s "bf16"); reflexivity.
Qed.


(** **** Arguments that stop the run *)

Lemma parse_optional_inl (parser : ArgumentParser_t) (arg : string)
    (e : parser_exit) :
  parse_optional parser arg = inl e -> exists u, e = UsageError u.
Proof.
  unfold parse_optional. destruct arg as [|c r]; [discriminate|].
  destruct (negb _); [discriminate|].
  destruct (lookup_option parser _); [discriminate|].
  destruct (_ =? _)%nat; [discriminate|].
  destruct (match Str.split1 _ _ with Some _ => _ | None => _ end);
    [discriminate|].
  destruct (get_option_tuples parser _) as [|t [|t' ts]].
  - destruct (_ && _); [discriminate|].
    destruct (Str.contains _ _); discriminate.
  - discriminate.
  - intros [= <-]. eauto.
Qed.

Lemma classify_inl (parser : ArgumentParser_t) (argv : list string)
    (e : parser_exit) :
  classify parser argv = inl e -> exists u, e = UsageError u.
Proof.
  induction argv as [|s argv IH]; cbn; [discriminate|].
  destruct (String.eqb s "--"); [discriminate|].
  destruct (parse_optional parser s) as [e'|t] eqn:Hp.
  - intros [= <-]. apply parse_optional_inl in Hp. exact Hp.
  - destruct (classify parser argv) as [e'|cl]; [|discriminate].
    intros [= <-]. apply IH. reflexivity.
Qed.

(** X15: An abbreviation that two flags share ([--s]: --seed and --save-model;
    [--e]: --epochs and --eval_max_steps_per_epoch) makes argparse exit with
    status 2 wherever it stands before a ["--"], also when [--help] is
    given before it. *)
Theorem shared_abbreviation_exits (before after : list string)
    (arg : string) :
  In arg ["--s"; "--e"] ->
  ~ In "--" before ->
  get_args (before ++ arg :: after) = inl (SystemExit 2).
Proof.
  intros Harg Hb.
  assert (Hcl : exists u, classify the_parser (before ++ arg :: after)
                          = inl (UsageError u)).
  { induction before as [|s before IH]; cbn [app classify].
    - destruct Harg as [<- | [<- | []]]; vm_compute; eauto.
    - destruct (String.eqb_spec s "--") as [->|_];
        [exfalso; apply Hb; left; reflexivity|].
      destruct (parse_optional the_parser s) as [e|t] eqn:Hp.
      + apply parse_optional_inl in Hp as [u ->]. eauto.
      + destruct IH as [u ->]; [intros Hin; apply Hb; right; exact Hin|].
        eauto. }
  destruct Hcl as [u Hcl]. unfold get_args, parse_args. rewrite Hcl.
  reflexivity.
Qed.

(** X16: [-h] or [--help] in front makes argparse exit: with status 0 when no
    later argument is a shared abbreviation, with status 2 otherwise. *)
Theorem help_first_exits (h : string) (rest : list string) :
  In h ["-h"; "--help"] ->
  (unambiguous rest -> get_args (h :: rest) = inl (SystemExit 0))
  /\ (~ unambiguous rest -> get_args (h :: rest) = inl (SystemExit 2)).
Proof.
  intros Hh.
  assert (Hp : exists a,
             String.eqb h "--" = false
             /\ parse_optional the_parser h = inr (Some (Some a, h, None))
             /\ kind a = Help).
  { destruct Hh as [<- | [<- | []]]; eexists; repeat split; reflexivity. }
  destruct Hp as (a & Hne & Hp & Hk).
  unfold get_args, parse_args, unambiguous. cbn [classify].
  rewrite Hne, Hp. split.
  - intros [cl ->]. cbn [consume_args].
    unfold takes_one_argument. rewrite Hk. cbn [app take_actions].
    unfold take_action, get_values, takes_one_argument, call_action.
    rewrite Hk. reflexivity.
  - intros Hna.
    destruct (classify the_parser rest) as [e|cl] eqn:Hcl;
      [|exfalso; apply Hna; eauto].
    apply classify_inl in Hcl as [u ->]. reflexivity.
Qed.

(** X17: The script takes no positional argument: an argument vector that
    starts with a word that is not an option never parses; argparse exits
    with status 2, or with status 0 when [--help] comes later. *)
Theorem leading_word_exits (s : string) (rest : list string) :
  Str.starts_with_dash s = false ->
  get_args (s :: rest) = inl (SystemExit 2)
  \/ get_args (s :: rest) = inl (SystemExit 0).
Proof.
  intros Hs.
  destruct (get_args (s :: rest)) as [e|args] eqn:Hg.
  - apply get_args_inl in Hg as [-> | ->]; auto.
  - exfalso. unfold get_args, parse_args in Hg. cbn [classify] in Hg.
    rewrite (bare_is_not_dashes s Hs), (parse_optional_bare _ s Hs) in Hg.
    destruct (classify the_parser rest) as [|cl] eqn:Hcl; [discriminate|].
    cbn [consume_args] in Hg.
    destruct (consume_args the_parser cl (add_defaults the_parser) ([] ++ [s]))
      as [|[ns ex]] eqn:Hc; [discriminate|].
    destruct ex; [|discriminate].
    apply (consume_args_save_model (length cl) _ _ _ _ _ false) in Hc
      as (_ & _ & Hex);
      [|lia|apply (classify_known rest), Hcl|reflexivity].
    destruct Hex as [Hex _]; [reflexivity|discriminate].
Qed.

End MoreParserFacts.

(* ===================================================================== *)
(** ** The further properties on concrete arguments *)

Section MoreRuns.
Import Concrete.

#[local] Set Warnings "-inexact-float".

Lemma parsed_values_reach_the_run_witness :
  get_args ["--seed"; "3"; "--epochs=2"]
  = inr (<["epochs" := PyInt 2]> (<["seed" := PyInt 3]> defaults))
  /\ exists args_seed rest train_loader eval_loader st u,
      snd (run_main cpu_world ["--seed"; "3"; "--epochs=2"])
      = do_seed args_seed :: rest
      /\ (<["epochs" := PyInt 2]> (<["seed" := PyInt 3]> defaults)) !! "seed"
         = Some args_seed
      /\ loaders_built (snd (run_main cpu_world ["--seed"; "3"; "--epochs=2"]))
         = [train_loader; eval_loader]
      /\ (<["epochs" := PyInt 2]> (<["seed" := PyInt 3]> defaults))
           !! "batch_size" = Some (batch_size train_loader)
      /\ (<["epochs" := PyInt 2]> (<["seed" := PyInt 3]> defaults))
           !! "test_batch_size" = Some (batch_size eval_loader)
      /\ fits (snd (run_main cpu_world ["--seed"; "3"; "--epochs=2"]))
         = [(st, u)]
      /\ train_dataloader st = train_loader
      /\ eval_dataloader st = eval_loader
      /\ (<["epochs" := PyInt 2]> (<["seed" := PyInt 3]> defaults)) !! "epochs"
         = Some (max_epochs st).
Proof.
  split; [reflexivity|].
  apply (parsed_values_reach_the_run cpu_world ["--seed"; "3"; "--epochs=2"]).
  reflexivity.
Defined.

Lemma parsed_values_reach_the_unit_witness :
  get_args ["--lr"; "0.5"] = inr (<["lr" := PyFloat 0.5]> defaults)
  /\ exists st u args_lr args_gamma,
      fits (snd (run_main cpu_world ["--lr"; "0.5"])) = [(st, u)]
      /\ units_built (snd (run_main cpu_world ["--lr"; "0.5"]))
         = [MyUnit.super u]
      /\ (<["lr" := PyFloat 0.5]> defaults) !! "lr" = Some args_lr
      /\ (<["lr" := PyFloat 0.5]> defaults) !! "gamma" = Some args_gamma
      /\ (<["lr" := PyFloat 0.5]> defaults) !! "log_frequency_steps"
         = Some (MyUnit.log_frequency_steps (MyUnit.super u))
      /\ (<["lr" := PyFloat 0.5]> defaults) !! "precision"
         = Some (MyUnit.precision (MyUnit.super u))
      /\ forall (module : Net.Net) (h : MyUnit.heap),
           MyUnit.self h = u ->
           MyUnit.configure_optimizers_and_lr_scheduler module h
           = ((mkAdadelta module args_lr,
               mkStepLR (mkAdadelta module args_lr) 1 args_gamma), h).
Proof.
  split; [reflexivity|].
  apply (parsed_values_reach_the_unit cpu_world ["--lr"; "0.5"]).
  reflexivity.
Defined.

Lemma saving_follows_fit_witness :
  get_args ["--save-model"] = inr (<["save_model" := PyBool true]> defaults)
  /\ exists before st u after,
      snd (run_main mps_world ["--save-model"]) = before ++ do_fit st u :: after
      /\ state_dicts_taken before = []
      /\ files_saved before = []
      /\ fits before = [] /\ fits after = [].
Proof.
  split; [reflexivity|].
  apply (saving_follows_fit mps_world ["--save-model"]
           (<["save_model" := PyBool true]> defaults)).
  reflexivity.
Defined.

Lemma device_replaced_only_for_mps_witness :
  get_args [] = inr defaults
  /\ devices_made (snd (run_main mps_world [])) = ["cpu"]
  /\ devices_made (snd (run_main cuda_world [])) = [].
Proof.
  split; [reflexivity|]. split.
  - apply (proj1 (device_replaced_only_for_mps mps_world [] defaults eq_refl)).
  - apply (proj1 (device_replaced_only_for_mps cuda_world [] defaults eq_refl)).
Defined.

Lemma get_args_attributes_witness :
  get_args ["--gamma"; "0.9"; "--sa"]
  = inr (<["save_model" := PyBool true]>
           (<["gamma" := PyFloat 0.9]> defaults))
  /\ dom (<["save_model" := PyBool true]>
            (<["gamma" := PyFloat 0.9]> defaults)) = dom defaults
  /\ size (<["save_model" := PyBool true]>
             (<["gamma" := PyFloat 0.9]> defaults)) = 10%nat.
Proof.
  split; [reflexivity|].
  apply (get_args_attributes ["--gamma"; "0.9"; "--sa"]). reflexivity.
Defined.

Lemma precision_is_a_choice_witness :
  get_args ["--precision"; "bf16"]
  = inr (<["precision" := PyStr "bf16"]> defaults)
  /\ (<["precision" := PyStr "bf16"]> defaults) !! "precision"
     = Some (PyStr "bf16")
  /\ ("bf16" = "fp16" \/ "bf16" = "bf16").
Proof.
  split; [reflexivity|]. split; [reflexivity|].
  apply (precision_is_a_choice ["--precision"; "bf16"]
           (<["precision" := PyStr "bf16"]> defaults) "bf16");
    reflexivity.
Defined.

Lemma numeric_flag_sets_its_attribute_witness :
  In ("--epochs", "epochs", TInt) numeric_flags
  /\ Str.starts_with_dash "3" = false
  /\ get_args ["--epochs"; "3"]
     = match convert TInt "3" with
       | Some v => inr (<["epochs" := v]> defaults)
       | None => inl (SystemExit 2)
       end.
Proof.
  split; [cbn; tauto|]. split; [reflexivity|].
  apply (numeric_flag_sets_its_attribute "--epochs" "epochs" TInt "3");
    [cbn; tauto|reflexivity].
Defined.

Lemma flag_equals_value_form_witness :
  In ("--lr", "lr", TFloat) numeric_flags
  /\ Str.starts_with_dash "0.25" = false
  /\ get_args ["--lr=0.25"] = get_args ["--lr"; "0.25"].
Proof.
  split; [cbn; tauto|]. split; [reflexivity|].
  apply (flag_equals_value_form "--lr" "lr" TFloat "0.25");
    [cbn; tauto|reflexivity].
Defined.

Lemma precision_flag_checks_choices_witness :
  Str.starts_with_dash "fp32" = false
  /\ get_args ["--precision"; "fp32"]
     = if String.eqb "fp32" "fp16" || String.eqb "fp32" "bf16"
       then inr (<["precision" := PyStr "fp32"]> defaults)
       else inl (SystemExit 2).
Proof.
  split; [reflexivity|].
  apply (precision_flag_checks_choices "fp32"). reflexivity.
Defined.

Lemma shared_abbreviation_exits_witness :
  In "--e" ["--s"; "--e"]
  /\ ~ In "--" ["--help"; "--seed"; "1"]
  /\ get_args (["--help"; "--seed"; "1"] ++ "--e" :: ["5"])
     = inl (SystemExit 2).
Proof.
  assert (Hno : ~ In "--" ["--help"; "--seed"; "1"])
    by (cbn; intros [|[|[|[]]]]; discriminate).
  split; [cbn; tauto|]. split; [exact Hno|].
  apply (shared_abbreviation_exits ["--help"; "--seed"; "1"] ["5"] "--e");
    [cbn; tauto|exact Hno].
Defined.

Lemma help_first_exits_witness :
  In "-h" ["-h"; "--help"]
  /\ unambiguous ["--epochs"; "x"]
  /\ get_args ("-h" :: ["--epochs"; "x"]) = inl (SystemExit 0).
Proof.
  assert (Hu : unambiguous ["--epochs"; "x"])
    by (eexists; vm_compute; reflexivity).
  split; [cbn; tauto|]. split; [exact Hu|].
  apply (proj1 (help_first_exits "-h" ["--epochs"; "x"]
                  (or_introl eq_refl))).
  exact Hu.
Defined.

Lemma leading_word_exits_witness :
  Str.starts_with_dash "train" = false
  /\ (get_args ["train"; "--epochs"; "3"] = inl (SystemExit 2)
      \/ get_args ["train"; "--epochs"; "3"] = inl (SystemExit 0)).
Proof.
  split; [reflexivity|].
  apply (leading_word_exits "train" ["--epochs"; "3"]). reflexivity.
Defined.

End MoreRuns.

(* ===================================================================== *)
(** ** Who writes to the logger, and a flag without value *)

Section LoggerAndFlag.
Context `{Tensors} `{Builtins}.

Lemma log_calls_app (es es' : list MyUnit.effect) :
  log_calls (es ++ es') = (log_calls es + log_calls es')%nat.
Proof.
  unfold log_calls. rewrite List.filter_app, length_app. reflexivity.
Qed.

Lemma invoke_log_calls (i : MyUnit.invocation) (h : MyUnit.heap) :
  log_calls (MyUnit.effects (snd (MyUnit.invoke i h)))
  = (log_calls (MyUnit.effects h) + logs_of i)%nat.
Proof.
  destruct i as [m | st [inp tg] | st [inp tg] l o | st step iv | st
                | st [inp tg]];
    cbn -[log_calls];
    try destruct (copy_data_to_device _ _);
    cbn -[log_calls];
    rewrite ?log_calls_app; cbn; lia.
Qed.

(** X4: Only [log_metrics] and [eval_step] write to the logger: over any
    sequence of calls of the methods, the number of entries written is two
    for each [log_metrics] and one for each [eval_step]; [compute_loss],
    [update_metrics], [on_train_epoch_end] and
    [configure_optimizers_and_lr_scheduler] write none. *)
Theorem logger_written_by_logging_and_evaluation
    (calls : list MyUnit.invocation) (h : MyUnit.heap) :
  log_calls (MyUnit.effects (snd (MyUnit.run calls h)))
  = (log_calls (MyUnit.effects h) + list_sum (map logs_of calls))%nat.
Proof.
  revert h. induction calls as [|i calls IH]; intros h.
  - cbn. lia.
  - rewrite run_cons, IH, invoke_log_calls.
    change (list_sum (map logs_of (i :: calls)))
      with (logs_of i + list_sum (map logs_of calls))%nat.
    lia.
Qed.

(** X18: [--save-model] takes no value: given one with [=], whatever it is,
    argparse exits with status 2. *)
Theorem save_model_takes_no_value (s : string) :
  get_args [("--save-model=" ++ s)%string] = inl (SystemExit 2).
Proof.
  unfold get_args, parse_args. cbn [classify].
  assert (Hne : String.eqb ("--save-model=" ++ s) "--" = false)
    by reflexivity.
  assert (Hp : exists a,
             parse_optional the_parser ("--save-model=" ++ s)
             = inr (Some (Some a, "--save-model", Some s))
             /\ takes_one_argument a = false)
    by (eexists; split; vm_compute; reflexivity).
  destruct Hp as (a & Hp & Ht). rewrite Hne, Hp. cbn [consume_args].
  destruct s as [|c tail]; cbn [explicit_chain]; rewrite Ht; reflexivity.
Qed.

End LoggerAndFlag.
